(** * SecretChamber broadcast server: the admission, registry, broadcast and
    history core of [oserveroserver/server.c], embedded in Rocq.

    Conventions of the embedding.
    - A C string is a [string]: the bytes before the terminating NUL.  The only
      place raw bytes enter is the receive buffer [in]/[len] of [ws_callback],
      which the code copies and terminates itself; [c_str] is that view.
    - [char buf[N]] written with [snprintf (buf, N, ...)] keeps at most [N-1]
      bytes: [snprintf N].
    - [int] counters are [Z]; the registry would need 2^31 nodes to overflow
      them.
    - A connection handle [struct lws *] is a non-null address ([positive]);
      the transport never hands the callback a null handle, so the null tests
      of [send_to_client] and [broadcast_text] always pass.  [malloc] and
      [calloc] succeed.
    - What SQLite answers is not decided by the program: every callback runs
      against an [sqlite_rc], the return codes the library gives to the calls
      made during that callback.
    - The callbacks are delivered one at a time by the [lws_service] loop of
      [main]; a run is a list of callbacks. *)

From Stdlib Require Import ZArith List String Ascii Bool Lia DecimalString.
Import ListNotations.
Local Open Scope string_scope.
Local Open Scope Z_scope.

(** ** C strings *)

Module CString.

Definition NUL : ascii := Ascii.zero.
Definition TAB : ascii := "009"%char.
Definition LF : string := String "010"%char EmptyString.

(** The unsigned value of a byte. *)
Definition code (a : ascii) : Z := Z.of_N (N_of_ascii a).

(** [tolower] of the C locale, on the unsigned value. *)
Definition tolower (a : ascii) : Z :=
  if (65 <=? code a) && (code a <=? 90) then code a + 32 else code a.

(** [toupper] of the C locale, as a byte. *)
Definition toupper (a : ascii) : ascii :=
  if (97 <=? code a) && (code a <=? 122)
  then ascii_of_N (Z.to_N (code a - 32)) else a.

Fixpoint uppercase (s : string) : string :=
  match s with
  | EmptyString => EmptyString
  | String a r => String (toupper a) (uppercase r)
  end.

(** The C string held by a buffer of raw bytes followed by a NUL:
    [memcpy (msg, in, len); msg[len] = 0]. *)
Fixpoint c_str (bytes : string) : string :=
  match bytes with
  | EmptyString => EmptyString
  | String a r => if Ascii.eqb a NUL then EmptyString else String a (c_str r)
  end.

Fixpoint strcasecmp (s1 s2 : string) : Z :=
  match s1, s2 with
  | EmptyString, EmptyString => 0
  | EmptyString, String b _ => 0 - tolower b
  | String a _, EmptyString => tolower a
  | String a r1, String b r2 =>
      if tolower a =? tolower b then strcasecmp r1 r2
      else tolower a - tolower b
  end.

Fixpoint strncmp (s1 s2 : string) (n : nat) : Z :=
  match n with
  | O => 0
  | S k =>
      match s1, s2 with
      | EmptyString, EmptyString => 0
      | EmptyString, String b _ => 0 - code b
      | String a _, EmptyString => code a
      | String a r1, String b r2 =>
          if code a =? code b then strncmp r1 r2 k else code a - code b
      end
  end.

(** [s + n] for a pointer into a string of at least [n] bytes. *)
Fixpoint advance (n : nat) (s : string) : string :=
  match n, s with
  | S k, String _ r => advance k r
  | _, _ => s
  end.

(** The loop that moves a pointer past leading spaces and tabs. *)
Fixpoint skip_blanks (s : string) : string :=
  match s with
  | String a r =>
      if Ascii.eqb a " "%char || Ascii.eqb a TAB then skip_blanks r else s
  | EmptyString => EmptyString
  end.

Fixpoint take (n : nat) (s : string) : string :=
  match n, s with
  | S k, String a r => String a (take k r)
  | _, _ => EmptyString
  end.

(** [snprintf (buf, size, ...)] where the format expands to [s]. *)
Definition snprintf (size : nat) (s : string) : string := take (size - 1) s.

(** [%d] *)
Definition dec (z : Z) : string := NilZero.string_of_int (Z.to_int z).

Definition strlen (s : string) : nat := String.length s.

End CString.
Import CString.

(** ** Data *)

Definition PORT : Z := 8080.
Definition MAX_NAME_LEN : nat := 64.
Definition MAX_ROLE_LEN : nat := 16.
Definition MAX_MSG_LEN : nat := 4096.
Definition HISTORY_LIMIT : Z := 500.

(** [struct lws *] *)
Definition lws : Type := positive.
Bind Scope positive_scope with lws.

(** [struct client]; [next] is the tail of the list the node sits in. *)
Record client : Type := mk_client {
  wsi : lws;
  username : string;
  role : string            (* "READER", "WRITER" or "NONE" *)
}.

(** The [messages] table in [id] order, each row [(username, message)], with
    the three handles [init_db] sets up; a handle is [true] when non-null. *)
Record sqlite : Type := mk_sqlite {
  db : bool;
  insert_stmt : bool;
  select_stmt : bool;
  messages : list (string * string)
}.

(** The globals of the program. *)
Record server : Type := mk_server {
  clients_head : list client;
  store : sqlite
}.

(** What the SQLite library answers during one callback. *)
Record sqlite_rc : Type := mk_rc {
  bind_ok : bool;            (* the sqlite3_bind calls return SQLITE_OK *)
  insert_done : bool;        (* sqlite3_step of the insert returns SQLITE_DONE *)
  select_error : option nat; (* [Some k]: sqlite3_step of the select reports
                                an error after [k] rows; [None]: it runs to
                                SQLITE_DONE *)
  sqlite3_errmsg : string
}.

(** Everything the core does to the outside. *)
Inductive io : Type :=
| lws_write (to : lws) (payload : string)
| fprintf_stderr (text : string).

Inductive lws_callback_reasons : Type :=
| LWS_CALLBACK_ESTABLISHED
| LWS_CALLBACK_RECEIVE
| LWS_CALLBACK_CLOSED
| LWS_CALLBACK_OTHER.

(** ** The program monad: the globals are threaded, the output is appended *)

Definition M (A : Type) : Type := server -> A * server * list io.

Definition ret {A : Type} (a : A) : M A := fun s => (a, s, []).

Definition bind {A B : Type} (m : M A) (k : A -> M B) : M B :=
  fun s =>
    match m s with
    | (a, s1, o1) =>
        match k a s1 with
        | (b, s2, o2) => (b, s2, (o1 ++ o2)%list)
        end
    end.

Definition gets {A : Type} (f : server -> A) : M A := fun s => (f s, s, []).
Definition modify (f : server -> server) : M unit := fun s => (tt, f s, []).
Definition emit (o : list io) : M unit := fun s => (tt, s, o).

Declare Scope prog_scope.
Delimit Scope prog_scope with prog.
Notation "x <- m ;; k" := (bind m (fun x => k))
  (at level 61, m at next level, right associativity) : prog_scope.
Notation "m ;; k" := (bind m (fun _ => k))
  (at level 61, right associativity) : prog_scope.
Local Open Scope prog_scope.

Definition value {A : Type} (r : A * server * list io) : A := fst (fst r).
Definition globals {A : Type} (r : A * server * list io) : server := snd (fst r).
Definition output {A : Type} (r : A * server * list io) : list io := snd r.

Definition set_clients (l : list client) (s : server) : server :=
  mk_server l (store s).
Definition set_store (d : sqlite) (s : server) : server :=
  mk_server (clients_head s) d.

(** ** The client registry *)

Definition add_client (w : lws) : M unit :=
  let c := mk_client w (snprintf MAX_NAME_LEN "Anonymous")
                       (snprintf MAX_ROLE_LEN "NONE") in
  modify (fun s => set_clients (c :: clients_head s) s).

Fixpoint unlink (w : lws) (l : list client) : list client :=
  match l with
  | [] => []
  | p :: next => if Pos.eqb (wsi p) w then next else p :: unlink w next
  end.

Definition remove_client (w : lws) : M unit :=
  modify (fun s => set_clients (unlink w (clients_head s)) s).

Fixpoint lookup (w : lws) (l : list client) : option client :=
  match l with
  | [] => None
  | p :: next => if Pos.eqb (wsi p) w then Some p else lookup w next
  end.

(** The node found is returned by its contents; a store through the pointer
    is [assign], which rewrites that node: the first one with the handle. *)
Definition find_client (w : lws) : M (option client) :=
  gets (fun s => lookup w (clients_head s)).

Fixpoint rewrite_node (w : lws) (f : client -> client) (l : list client)
  : list client :=
  match l with
  | [] => []
  | p :: next =>
      if Pos.eqb (wsi p) w then f p :: next else p :: rewrite_node w f next
  end.

Definition assign (c : client) (f : client -> client) : M unit :=
  modify (fun s => set_clients (rewrite_node (wsi c) f (clients_head s)) s).

Definition set_username (name : string) (c : client) : client :=
  mk_client (wsi c) name (role c).
Definition set_role (r : string) (c : client) : client :=
  mk_client (wsi c) (username c) r.

Fixpoint count_loop (l : list client) (r w : Z) : Z * Z :=
  match l with
  | [] => (r, w)
  | p :: next =>
      if strcasecmp (role p) "WRITER" =? 0 then count_loop next r (w + 1)
      else if strcasecmp (role p) "READER" =? 0 then count_loop next (r + 1) w
      else count_loop next r w
  end.

(** [count_roles (&readers, &writers)]: the pair [(readers, writers)]. *)
Definition count_roles : M (Z * Z) :=
  gets (fun s => count_loop (clients_head s) 0 0).

Definition collect_wsis : M (list lws) :=
  gets (fun s => map wsi (clients_head s)).

(** ** The history store *)

(** [INSERT INTO messages (username, message) VALUES (?, ?);] *)
Definition sqlite3_insert (u m : string) (d : sqlite) : sqlite :=
  mk_sqlite (db d) (insert_stmt d) (select_stmt d)
            (messages d ++ [(u, m)])%list.

(** [SELECT username, message, ts FROM messages ORDER BY id DESC LIMIT ?;]
    SQLite reads a negative limit as no limit. *)
Definition sqlite3_select (limit : Z) (d : sqlite) : list (string * string) :=
  if limit <? 0 then rev (messages d)
  else firstn (Z.to_nat limit) (rev (messages d)).

(** The rows for which [sqlite3_step] answers SQLITE_ROW. *)
Definition sqlite3_rows (rc : sqlite_rc) (rows : list (string * string))
  : list (string * string) :=
  match select_error rc with
  | None => rows
  | Some k => firstn k rows
  end.

Definition db_insert_message (rc : sqlite_rc) (uname message : string) : M Z :=
  d <- gets store ;;
  if negb (db d) || negb (insert_stmt d) then ret (-1)
  else if negb (bind_ok rc) then ret (-1)
  else if negb (insert_done rc) then
    emit [fprintf_stderr
            ("Failed to insert message: " ++ sqlite3_errmsg rc ++ LF)] ;;
    ret (-1)
  else
    modify (fun s => set_store (sqlite3_insert uname message (store s)) s) ;;
    ret 0.

(** The body of the row loop: one line per row, in a buffer of exactly
    [strlen u + 2 + strlen m + 1] bytes. *)
Definition history_line (row : string * string) : string :=
  let u := fst row in
  let m := snd row in
  let needed := (strlen u + 2 + strlen m + 1)%nat in
  snprintf needed (u ++ ": " ++ m).

(** The last loop of [db_get_history_snapshot], for the indices below [i]:
    [for (i = arr_len - 1; i >= 0; --i) { strcat (out, rows[i]);
    if (i > 0) strcat (out, "\n"); }] *)
Fixpoint strcat_rows (rows : list string) (i : nat) (out : string) : string :=
  match i with
  | O => out
  | S j =>
      let out1 := out ++ nth j rows "" in
      let out2 := if (0 <? j)%nat then out1 ++ LF else out1 in
      strcat_rows rows j out2
  end.

(** [None] is the null pointer. *)
Definition db_get_history_snapshot (rc : sqlite_rc) (limit : Z)
  : M (option string) :=
  d <- gets store ;;
  if negb (db d) || negb (select_stmt d) then ret None
  else if negb (bind_ok rc) then ret None
  else
    let rows := map history_line (sqlite3_rows rc (sqlite3_select limit d)) in
    ret (Some (strcat_rows rows (List.length rows) "")).

(** ** Sending *)

Definition send_to_client (c : client) (msg : string) : M unit :=
  emit [lws_write (wsi c) msg].

Definition broadcast_text (message : string) : M unit :=
  wsis <- collect_wsis ;;
  emit (map (fun w => lws_write w message) wsis).

Definition broadcast_counts : M unit :=
  rw <- count_roles ;;
  broadcast_text
    (snprintf 128 ("SYSTEM_COUNTS:" ++ dec (fst rw) ++ ":" ++ dec (snd rw))).

(** ** Admission *)

Definition active_readers : M Z := rw <- count_roles ;; ret (fst rw).
Definition active_writers : M Z := rw <- count_roles ;; ret (snd rw).

Definition can_admit_as_reader : M bool :=
  w <- active_writers ;; ret (w =? 0).

Definition can_admit_as_writer : M bool :=
  w <- active_writers ;;
  if w =? 0 then r <- active_readers ;; ret (r =? 0) else ret false.

(** ** The callback *)

Definition DENIED_WRITER : string :=
  "ROLE_DENIED:A writer or readers are already inside.".
Definition DENIED_READER : string := "ROLE_DENIED:A writer is already inside.".
Definition NOT_A_WRITER : string :=
  "System: You are a READER — you cannot send messages.".
Definition INSERT_WARNING : string :=
  "Warning: failed to insert message into DB" ++ LF.

(** The guarded send of the two grant branches: nothing is sent for the null
    pointer. *)
Definition send_snapshot (c : client) (snap : option string) : M unit :=
  match snap with
  | Some text => send_to_client c text
  | None => ret tt
  end.

(** [case LWS_CALLBACK_RECEIVE] of [ws_callback]; [bytes] is [in], of
    length [len]. *)
Definition on_receive (w : lws) (bytes : string) (rc : sqlite_rc) : M Z :=
  let msg := c_str bytes in
  found <- find_client w ;;
  match found with
  | None => ret 0
  | Some c =>
      (if strncmp msg "username:" 9 =? 0 then
         let uname := skip_blanks (advance 9 msg) in
         assign c (set_username (snprintf MAX_NAME_LEN uname))
       else if strncmp msg "role:" 5 =? 0 then
         let r := skip_blanks (advance 5 msg) in
         (if strcasecmp r "WRITER" =? 0 then
            ok <- can_admit_as_writer ;;
            if ok then
              assign c (set_role (snprintf MAX_ROLE_LEN "WRITER")) ;;
              snap <- db_get_history_snapshot rc HISTORY_LIMIT ;;
              send_snapshot c snap ;;
              send_to_client c "ROLE_CONFIRMED:writer" ;;
              broadcast_text
                (snprintf 200 ("System: " ++ username c ++ " joined as Writer"))
            else send_to_client c DENIED_WRITER
          else
            ok <- can_admit_as_reader ;;
            if ok then
              assign c (set_role (snprintf MAX_ROLE_LEN "READER")) ;;
              snap <- db_get_history_snapshot rc HISTORY_LIMIT ;;
              send_snapshot c snap ;;
              send_to_client c "ROLE_CONFIRMED:reader" ;;
              broadcast_text
                (snprintf 200 ("System: " ++ username c ++ " joined as Reader"))
            else send_to_client c DENIED_READER) ;;
         broadcast_counts
       else if strncmp msg "get_history" 11 =? 0 then
         snap <- db_get_history_snapshot rc HISTORY_LIMIT ;;
         match snap with
         | Some text => send_to_client c text
         | None => send_to_client c ""
         end
       else
         if negb (strcasecmp (role c) "WRITER" =? 0) then
           send_to_client c (snprintf 200 NOT_A_WRITER)
         else
           let name := match username c with
                       | EmptyString => "Anon"
                       | _ => username c
                       end in
           let out := snprintf MAX_MSG_LEN (name ++ ": " ++ msg) in
           failed <- db_insert_message rc (username c) msg ;;
           (if negb (failed =? 0) then emit [fprintf_stderr INSERT_WARNING]
            else ret tt) ;;
           broadcast_text out) ;;
      ret 0
  end.

(** [case LWS_CALLBACK_CLOSED] of [ws_callback]. *)
Definition on_closed (w : lws) : M Z :=
  found <- find_client w ;;
  match found with
  | Some c =>
      if strcasecmp (role c) "WRITER" =? 0 then
        let sysmsg :=
          snprintf 200 ("System: " ++ username c ++ " disconnected.") in
        remove_client w ;;
        broadcast_text sysmsg ;;
        broadcast_counts ;;
        ret 0
      else remove_client w ;; broadcast_counts ;; ret 0
  | None => remove_client w ;; broadcast_counts ;; ret 0
  end.

Definition ws_callback (w : lws) (reason : lws_callback_reasons)
    (bytes : string) (rc : sqlite_rc) : M Z :=
  match reason with
  | LWS_CALLBACK_ESTABLISHED => add_client w ;; ret 0
  | LWS_CALLBACK_RECEIVE => on_receive w bytes rc
  | LWS_CALLBACK_CLOSED => on_closed w
  | LWS_CALLBACK_OTHER => ret 0
  end.

(** ** Runs of the service loop *)

Record callback : Type := mk_callback {
  cb_wsi : lws;
  cb_reason : lws_callback_reasons;
  cb_in : string;
  cb_rc : sqlite_rc
}.

Definition deliver (s : server) (e : callback) : server :=
  globals (ws_callback (cb_wsi e) (cb_reason e) (cb_in e) (cb_rc e) s).

Definition run (events : list callback) (s : server) : server :=
  fold_left deliver events s.

(** What each callback of a run writes, in order. *)
Fixpoint transcript (events : list callback) (s : server) : list (list io) :=
  match events with
  | [] => []
  | e :: rest =>
      output (ws_callback (cb_wsi e) (cb_reason e) (cb_in e) (cb_rc e) s)
      :: transcript rest (deliver s e)
  end.

(** The globals when [lws_service] is first entered: no client, and whatever
    table [init_db] left behind. *)
Definition startup (d : sqlite) : server := mk_server [] d.

(** An SQLite that reports no error. *)
Definition sqlite_ok : sqlite_rc := mk_rc true true None "".

(** ** Start and end of the process *)

(** What SQLite answers to the calls of [init_db]. *)
Record init_rc : Type := mk_init_rc {
  open_ok : bool;            (* sqlite3_open returns SQLITE_OK *)
  open_handle : bool;        (* the handle is non-null after a failed open *)
  wal_ok : bool;             (* the PRAGMA is executed *)
  create_ok : bool;          (* CREATE TABLE IF NOT EXISTS is executed *)
  delete_ok : bool;          (* DELETE FROM messages is executed *)
  prepare_insert_ok : bool;
  prepare_select_ok : bool;
  db_errmsg : string;        (* sqlite3_errmsg (db) *)
  exec_errmsg : option string (* the message sqlite3_exec hands back, if any *)
}.

(** [errmsg ? errmsg : "unknown"] *)
Definition errmsg_or_unknown (errmsg : option string) : string :=
  match errmsg with
  | Some text => text
  | None => "unknown"
  end.

(** [init_db (filename)] on a file whose [messages] table holds [table] (no
    row when the file or the table is new): the return value, the three
    handles with the table, and what is written to [stderr]. *)
Definition init_db (filename : string) (table : list (string * string))
    (rc : init_rc) : Z * sqlite * list io :=
  if negb (open_ok rc) then
    (-1, mk_sqlite (open_handle rc) false false table,
     [fprintf_stderr ("Cannot open sqlite db '" ++ filename ++ "': "
                      ++ db_errmsg rc ++ LF)])
  else
    let wal_log :=
      if wal_ok rc then []
      else [fprintf_stderr ("Warning: failed to set WAL mode: "
                            ++ errmsg_or_unknown (exec_errmsg rc) ++ LF)] in
    if negb (create_ok rc) then
      (-1, mk_sqlite false false false table,
       (wal_log
        ++ [fprintf_stderr ("Failed to create table: "
                            ++ errmsg_or_unknown (exec_errmsg rc) ++ LF)])%list)
    else
      let cleared := if delete_ok rc then [] else table in
      let delete_log :=
        if delete_ok rc then []
        else [fprintf_stderr ("Failed to clear table: "
                              ++ errmsg_or_unknown (exec_errmsg rc) ++ LF)] in
      if negb (prepare_insert_ok rc) then
        (-1, mk_sqlite false false false cleared,
         (wal_log ++ delete_log
          ++ [fprintf_stderr ("Failed to prepare insert stmt: "
                              ++ db_errmsg rc ++ LF)])%list)
      else if negb (prepare_select_ok rc) then
        (-1, mk_sqlite false false false cleared,
         (wal_log ++ delete_log
          ++ [fprintf_stderr ("Failed to prepare select stmt: "
                              ++ db_errmsg rc ++ LF)])%list)
      else (0, mk_sqlite true true true cleared, (wal_log ++ delete_log)%list).

(** [close_db ()]: each handle that is set is released and nulled. *)
Definition close_db : M unit :=
  modify (fun s => set_store (mk_sqlite false false false (messages (store s))) s).

(** What the process writes: [printf] to the standard output, and the output
    of the core. *)
Inductive console : Type :=
| printf (text : string)
| core (o : io).

Definition DEFAULT_DBFILE : string := "chat_history.sqlite".

(** The transport as [main] sees it: call number [i] of
    [lws_service (context, 1000)] delivers callbacks and returns a value. *)
Definition transport : Type := nat -> list callback * Z.

(** The callbacks of the calls number [i] to [i + count - 1]. *)
Fixpoint delivered (lws_service : transport) (i count : nat) : list callback :=
  match count with
  | O => []
  | S rest => (fst (lws_service i) ++ delivered lws_service (S i) rest)%list
  end.

(** [while (n >= 0) n = lws_service (context, 1000);] from call number [i]
    on, [n] being the value of the last call: the globals and the output of
    the core when the loop is left, [None] when it is still running after
    [fuel] more calls. *)
Fixpoint service_loop (fuel : nat) (lws_service : transport) (i : nat) (n : Z)
    (s : server) (out : list io) : option (server * list io) :=
  if n <? 0 then Some (s, out)
  else
    match fuel with
    | O => None
    | S rest =>
        let call := lws_service i in
        service_loop rest lws_service (S i) (snd call) (run (fst call) s)
          (out ++ List.concat (transcript (fst call) s))%list
    end.

(** [main (argc, argv)].  [context] tells whether [lws_create_context]
    returns a context, [at_destroy] are the callbacks delivered while
    [lws_context_destroy] runs.  The result is the exit status, the globals
    at exit and the output; it is [None] when the service loop is still
    running after [fuel] calls of [lws_service]. *)
Definition main (fuel : nat) (argv : list string)
    (table : list (string * string)) (irc : init_rc) (context : bool)
    (lws_service : transport) (at_destroy : list callback)
  : option (Z * server * list console) :=
  let dbfile := match argv with
                | _ :: file :: _ => file
                | _ => DEFAULT_DBFILE
                end in
  let started := init_db dbfile table irc in
  let s0 := startup (snd (fst started)) in
  let init_log := map core (snd started) in
  if negb (fst (fst started) =? 0) then
    Some (1, s0,
          (init_log
           ++ [core (fprintf_stderr
                       ("Failed to initialize database. Exiting." ++ LF))])%list)
  else if negb context then
    Some (1, globals (close_db s0),
          (init_log ++ [core (fprintf_stderr ("lws init failed" ++ LF))])%list)
  else
    match service_loop fuel lws_service 0 0 s0 [] with
    | None => None
    | Some (s, out) =>
        Some (0, globals (close_db (run at_destroy s)),
              (init_log
               ++ [ printf ("Broadcast server (SQLite-backed) started on :"
                            ++ dec PORT ++ LF);
                    printf ("DB file: " ++ dbfile ++ LF);
                    printf ("Waiting for connections..." ++ LF) ]
               ++ map core (out ++ List.concat (transcript at_destroy s)))%list)
    end.

(** ** Notions used in the statements *)

(** The result [r] with the output [o] written before it. *)
Definition after {A : Type} (o : list io) (r : A * server * list io)
  : A * server * list io :=
  match r with
  | (a, s, o') => (a, s, (o ++ o')%list)
  end.

(** The registry counts of a state, as [count_roles] stores them. *)
Definition readers (s : server) : Z := fst (count_loop (clients_head s) 0 0).
Definition writers (s : server) : Z := snd (count_loop (clients_head s) 0 0).

(** The messages of [broadcast_text] and [broadcast_counts], spelled out. *)
Definition to_all (s : server) (text : string) : list io :=
  map (fun c => lws_write (wsi c) text) (clients_head s).
Definition counts_text (s : server) : string :=
  "SYSTEM_COUNTS:" ++ dec (readers s) ++ ":" ++ dec (writers s).

(** The snapshot a callback obtains in state [s]. *)
Definition snapshot_of (rc : sqlite_rc) (s : server) : option string :=
  value (db_get_history_snapshot rc HISTORY_LIMIT s).

(** Whether [db_get_history_snapshot] gets as far as stepping the query. *)
Definition select_available (rc : sqlite_rc) (s : server) : bool :=
  db (store s) && select_stmt (store s) && bind_ok rc.

(** The text [db_get_history_snapshot] builds from the rows it steps over. *)
Definition snapshot_text (rc : sqlite_rc) (limit : Z) (d : sqlite) : string :=
  let rows := map history_line (sqlite3_rows rc (sqlite3_select limit d)) in
  strcat_rows rows (List.length rows) "".

(** The registry after a store through the node pointer [c] of field
    updates [f]. *)
Definition stored (c : client) (f : client -> client) (s : server) : server :=
  set_clients (rewrite_node (wsi c) f (clients_head s)) s.

Definition history_out (c : client) (snap : option string) : list io :=
  match snap with
  | Some text => [lws_write (wsi c) text]
  | None => []
  end.

(** Whether the insert of a callback goes through in state [s]. *)
Definition insert_succeeds (rc : sqlite_rc) (s : server) : bool :=
  db (store s) && insert_stmt (store s) && bind_ok rc && insert_done rc.

(** What [db_insert_message] itself writes to [stderr]. *)
Definition insert_log (rc : sqlite_rc) (s : server) : list io :=
  if db (store s) && insert_stmt (store s) && bind_ok rc
     && negb (insert_done rc)
  then [fprintf_stderr ("Failed to insert message: " ++ sqlite3_errmsg rc ++ LF)]
  else [].

Definition inserted (u m : string) (s : server) : server :=
  set_store (sqlite3_insert u m (store s)) s.

(** The line an accepted chat message is broadcast as. *)
Definition chat_line (c : client) (msg : string) : string :=
  snprintf MAX_MSG_LEN
    (match username c with EmptyString => "Anon" | _ => username c end
     ++ ": " ++ msg).

Definition unlinked (w : lws) (s : server) : server :=
  set_clients (unlink w (clients_head s)) s.

Definition is_writer (c : client) : bool := strcasecmp (role c) "WRITER" =? 0.
Definition is_reader (c : client) : bool :=
  negb (is_writer c) && (strcasecmp (role c) "READER" =? 0).
Definition has_role (r : string) (c : client) : bool := String.eqb (role c) r.

Definition tally (P : client -> bool) (l : list client) : Z :=
  Z.of_nat (List.length (filter P l)).

(** The roles the program ever writes. *)
Definition canonical (c : client) : Prop :=
  role c = "NONE" \/ role c = "READER" \/ role c = "WRITER".

(** The invariant of the registry. *)
Definition exclusive (s : server) : Prop :=
  Forall canonical (clients_head s) /\
  (writers s = 0 \/ (writers s = 1 /\ readers s = 0)).

(** Two sessions connect and both ask to read. *)
Definition two_readers : list callback :=
  [ mk_callback 1 LWS_CALLBACK_ESTABLISHED "" sqlite_ok;
    mk_callback 2 LWS_CALLBACK_ESTABLISHED "" sqlite_ok;
    mk_callback 1 LWS_CALLBACK_RECEIVE "role:reader" sqlite_ok;
    mk_callback 2 LWS_CALLBACK_RECEIVE "role:reader" sqlite_ok ].

Fixpoint nul_free (s : string) : Prop :=
  match s with
  | EmptyString => True
  | String a r => a <> NUL /\ nul_free r
  end.

Inductive Role : Type := Reader | Writer.

(** Follows the specification: the requested role is Writer when the value,
    leading spaces and tabs stripped, is WRITER in any letter case, and
    Reader for any other value. *)
Definition RequestedRole (value : string) : Role :=
  if String.eqb (uppercase (skip_blanks value)) "WRITER" then Writer
  else Reader.

(** Follows the specification:
    [CanAdmitWriter := writerCount==0 AND readerCount==0]. *)
Definition CanAdmitWriter (readerCount writerCount : Z) : bool :=
  (writerCount =? 0) && (readerCount =? 0).

(** Follows the specification: [CanAdmitReader := writerCount==0]. *)
Definition CanAdmitReader (readerCount writerCount : Z) : bool :=
  writerCount =? 0.

Definition CanAdmit (r : Role) (readerCount writerCount : Z) : bool :=
  match r with
  | Writer => CanAdmitWriter readerCount writerCount
  | Reader => CanAdmitReader readerCount writerCount
  end.

Definition role_name (r : Role) : string :=
  match r with Writer => "WRITER" | Reader => "READER" end.
Definition confirmation (r : Role) : string :=
  match r with
  | Writer => "ROLE_CONFIRMED:writer"
  | Reader => "ROLE_CONFIRMED:reader"
  end.
Definition denial (r : Role) : string :=
  match r with Writer => DENIED_WRITER | Reader => DENIED_READER end.
Definition join_notice (r : Role) (c : client) : string :=
  "System: " ++ username c ++
  match r with Writer => " joined as Writer" | Reader => " joined as Reader" end.

(** One session, just connected and without a role, and an empty table. *)
Definition lone_session : server :=
  mk_server [mk_client 1 "Anonymous" "NONE"] (mk_sqlite true true true []).

(** C3 as the specification states it: on every grant the snapshot is sent
    first, and the confirmation second. *)
Definition history_always_first (w : lws) (bytes : string) (rc : sqlite_rc)
    (s : server) : Prop :=
  exists (snap : string) (rest : list io),
    output (ws_callback w LWS_CALLBACK_RECEIVE bytes rc s)
    = lws_write w snap
      :: lws_write w (confirmation (RequestedRole (advance 5 (c_str bytes))))
      :: rest.

(** An SQLite whose [sqlite3_bind_int] fails. *)
Definition sqlite_bind_fails : sqlite_rc := mk_rc false true None "".

(** C4 as the specification states it: a denied request sends nothing to a session
    other than the requester. *)
Definition nothing_to_others (w : lws) (out : list io) : Prop :=
  forall (w' : lws) (payload : string),
    In (lws_write w' payload) out -> w' = w.

(** A Writer is inside (handle 1) and a second session (handle 2) has just
    connected. *)
Definition writer_inside : server :=
  mk_server [mk_client 2 "Anonymous" "NONE"; mk_client 1 "Anonymous" "WRITER"]
            (mk_sqlite true true true []).

(** A Reader (handle 2) next to a session without a role (handle 1). *)
Definition reader_inside : server :=
  mk_server [mk_client 2 "Bob" "READER"; mk_client 1 "Anonymous" "NONE"]
            (mk_sqlite true true true [("Ann", "hello")]).

(** A record as one line of text. *)
Definition record_line (row : string * string) : string :=
  fst row ++ ": " ++ snd row.

(** The [n] last elements of a list: the [n] most recently appended. *)
Definition most_recent {A : Type} (n : nat) (l : list A) : list A :=
  skipn (List.length l - n) l.

(** C6 as the specification states it: the line broadcast is
    [<username>: <message>]. *)
Definition broadcast_as_username_line (w : lws) (bytes : string)
    (rc : sqlite_rc) (s : server) (c : client) : Prop :=
  In (lws_write w (username c ++ ": " ++ c_str bytes))
     (output (ws_callback w LWS_CALLBACK_RECEIVE bytes rc s)).

(** A Writer who has set an empty display name. *)
Definition nameless_writer : server :=
  mk_server [mk_client 1 "" "WRITER"] (mk_sqlite true true true []).

(** An SQLite whose insert step fails. *)
Definition sqlite_insert_fails : sqlite_rc :=
  mk_rc true false None "disk I/O error".

(** The Writer Ann (handle 1), a second session without a role (handle 2),
    and one record in the table. *)
Definition ann_writes : server :=
  mk_server [mk_client 2 "Anonymous" "NONE"; mk_client 1 "Ann" "WRITER"]
            (mk_sqlite true true true [("Ann", "first")]).

(** The text before the last line of a snapshot. *)
Definition earlier_lines (rows : list (string * string)) : string :=
  match rows with
  | [] => ""
  | _ => String.concat LF (map record_line rows) ++ LF
  end.

(** C8 as the specification states it: the reply to [get_history] after an
    accepted chat message ends with the line of that message. *)
Definition last_line_is (reply : list io) (w : lws) (line : string) : Prop :=
  exists earlier : string, reply = [lws_write w (earlier ++ line)].

(** The departure notice for the node [c]. *)
Definition departure (c : client) : string :=
  snprintf 200 ("System: " ++ username c ++ " disconnected.").

(** C9 as the specification states it: the notice goes out while the closing
    session is still registered, so to every session of the registry before the
    removal; the counts follow the removal. *)
Definition departure_before_removal (w : lws) (s : server) (c : client)
  : Prop :=
  output (ws_callback w LWS_CALLBACK_CLOSED "" sqlite_ok s)
  = (to_all s (departure c)
     ++ to_all (unlinked w s) (snprintf 128 (counts_text (unlinked w s))))%list.

Definition is_blank (a : ascii) : bool :=
  Ascii.eqb a " "%char || Ascii.eqb a TAB.

Fixpoint all_blank (s : string) : bool :=
  match s with
  | EmptyString => true
  | String a r => is_blank a && all_blank r
  end.

(** A value of one space, one tab and one space. *)
Definition blank_name : string := "username: " ++ String TAB " ".


(** The scenario of the specification: A (handle 1) connects and asks to
    write, B (handle 2) connects and is denied both roles, A says hi, B asks
    for the history and tries to speak, A leaves. *)
Definition scenario : list callback :=
  [ mk_callback 1 LWS_CALLBACK_ESTABLISHED "" sqlite_ok;
    mk_callback 1 LWS_CALLBACK_RECEIVE "role:writer" sqlite_ok;
    mk_callback 2 LWS_CALLBACK_ESTABLISHED "" sqlite_ok;
    mk_callback 2 LWS_CALLBACK_RECEIVE "role:writer" sqlite_ok;
    mk_callback 2 LWS_CALLBACK_RECEIVE "role:reader" sqlite_ok;
    mk_callback 1 LWS_CALLBACK_RECEIVE "hi" sqlite_ok;
    mk_callback 2 LWS_CALLBACK_RECEIVE "get_history" sqlite_ok;
    mk_callback 2 LWS_CALLBACK_RECEIVE "me too" sqlite_ok;
    mk_callback 1 LWS_CALLBACK_CLOSED "" sqlite_ok ].

(** A display name that fits [char username[MAX_NAME_LEN]]. *)
Definition name_fits (c : client) : Prop :=
  (String.length (username c) <= 63)%nat.

(** The name an accepted chat line shows for a display name. *)
Definition shown_name (name : string) : string :=
  match name with
  | EmptyString => "Anon"
  | _ => name
  end.

(** A frame that matches none of the three command prefixes. *)
Definition is_chat (msg : string) : Prop :=
  strncmp msg "username:" 9 <> 0 /\ strncmp msg "role:" 5 <> 0
  /\ strncmp msg "get_history" 11 <> 0.

(** An SQLite for [init_db] that reports no error. *)
Definition init_ok : init_rc :=
  mk_init_rc true true true true true true true "" None.

(** An output that, if it is a write to a connection, goes to a handle of
    the registry [l]. *)
Definition to_registered (l : list client) (o : io) : Prop :=
  match o with
  | lws_write h _ => In h (map wsi l)
  | fprintf_stderr _ => True
  end.

(** C7 as the specification states it: the text of the [limit] most recent
    records when the handles of the store are there, the empty text when
    they are not. *)
Definition snapshot_as_specified (rc : sqlite_rc) (limit : Z) (s : server)
  : Prop :=
  value (db_get_history_snapshot rc limit s)
  = Some (if db (store s) && select_stmt (store s)
          then String.concat LF
                 (map record_line
                      (most_recent (Z.to_nat limit) (messages (store s))))
          else "").

(** A table of three records, and nobody connected. *)
Definition three_records : server :=
  startup (mk_sqlite true true true
             [("a", "one"); ("b", "two"); ("c", "three")]).

(** The same table after [close_db]. *)
Definition three_records_closed : server :=
  startup (mk_sqlite false false false
             [("a", "one"); ("b", "two"); ("c", "three")]).

(** An SQLite whose select step reports an error after the first row. *)
Definition sqlite_step_fails : sqlite_rc :=
  mk_rc true true (Some 1%nat) "disk I/O error".

(** ** Checks of the C string functions and of the callback *)

Example c_str_ex : c_str ("hi" ++ String NUL "junk") = "hi".
Proof. reflexivity. Qed.
Example strcasecmp_ex : strcasecmp "WrItEr" "WRITER" = 0.
Proof. reflexivity. Qed.
Example strncmp_ex : strncmp "role:x" "role:" 5 = 0.
Proof. reflexivity. Qed.
Example dec_ex : dec 12 = "12" /\ dec 0 = "0".
Proof. split; reflexivity. Qed.
Example snprintf_ex : snprintf 4 "abcdef" = "abc".
Proof. reflexivity. Qed.
Example skip_blanks_ex : skip_blanks (" " ++ String TAB " a b") = "a b".
Proof. reflexivity. Qed.
Example snapshot_ex :
  value (db_get_history_snapshot sqlite_ok 2
           (startup (mk_sqlite true true true
                       [("a", "one"); ("b", "two"); ("c", "three")])))
  = Some ("b: two" ++ LF ++ "c: three").
Proof. reflexivity. Qed.

Example scenario_transcript :
  transcript scenario (startup (mk_sqlite true true true []))
  = [ [];
      [ lws_write 1 "";
        lws_write 1 "ROLE_CONFIRMED:writer";
        lws_write 1 "System: Anonymous joined as Writer";
        lws_write 1 "SYSTEM_COUNTS:0:1" ];
      [];
      [ lws_write 2 "ROLE_DENIED:A writer or readers are already inside.";
        lws_write 2 "SYSTEM_COUNTS:0:1";
        lws_write 1 "SYSTEM_COUNTS:0:1" ];
      [ lws_write 2 "ROLE_DENIED:A writer is already inside.";
        lws_write 2 "SYSTEM_COUNTS:0:1";
        lws_write 1 "SYSTEM_COUNTS:0:1" ];
      [ lws_write 2 "Anonymous: hi"; lws_write 1 "Anonymous: hi" ];
      [ lws_write 2 "Anonymous: hi" ];
      [ lws_write 2 NOT_A_WRITER ];
      [ lws_write 2 "System: Anonymous disconnected.";
        lws_write 2 "SYSTEM_COUNTS:0:0" ] ].
Proof. reflexivity. Qed.

(** ** Laws of the program monad *)

Arguments strncmp : simpl never.
Arguments strcasecmp : simpl never.
Arguments snprintf : simpl never.
Arguments skip_blanks : simpl never.
Arguments advance : simpl never.
Arguments c_str : simpl never.
Arguments dec : simpl never.
Arguments strcat_rows : simpl never.

Lemma after_nil {A : Type} (r : A * server * list io) : after [] r = r.
Proof. destruct r as [[a s] o]. reflexivity. Qed.

Lemma bind_run {A B : Type} (m : M A) (k : A -> M B) (s s1 : server) (a : A)
    (o1 : list io) :
  m s = (a, s1, o1) -> bind m k s = after o1 (k a s1).
Proof. unfold bind. intros ->. reflexivity. Qed.

Lemma bind_ret {A B : Type} (a : A) (k : A -> M B) (s : server) :
  bind (ret a) k s = k a s.
Proof. rewrite (bind_run _ _ s s a []) by reflexivity. apply after_nil. Qed.

Lemma bind_gets {A B : Type} (f : server -> A) (k : A -> M B) (s : server) :
  bind (gets f) k s = k (f s) s.
Proof. rewrite (bind_run _ _ s s (f s) []) by reflexivity. apply after_nil. Qed.

Lemma bind_modify {B : Type} (f : server -> server) (k : unit -> M B)
    (s : server) :
  bind (modify f) k s = k tt (f s).
Proof. rewrite (bind_run _ _ s (f s) tt []) by reflexivity. apply after_nil. Qed.

Lemma bind_emit {B : Type} (o : list io) (k : unit -> M B) (s : server) :
  bind (emit o) k s = after o (k tt s).
Proof. now rewrite (bind_run _ _ s s tt o). Qed.

(** ** Equations of the callback, branch by branch *)

Lemma lookup_wsi (w : lws) (l : list client) (c : client) :
  lookup w l = Some c -> wsi c = w.
Proof.
  induction l as [|p next IH]; simpl; [discriminate|].
  destruct (Pos.eqb (wsi p) w) eqn:E.
  - intros H; inversion H; subst. now apply Pos.eqb_eq.
  - exact IH.
Qed.

Lemma broadcast_text_eq (text : string) (s : server) :
  broadcast_text text s = (tt, s, to_all s text).
Proof.
  unfold broadcast_text, collect_wsis. rewrite bind_gets.
  unfold emit, to_all. now rewrite map_map.
Qed.

Lemma snprintf_short (n : nat) (t : string) :
  (String.length t < n)%nat -> snprintf n t = t.
Proof.
  unfold snprintf. intros H.
  assert (G : (String.length t <= n - 1)%nat) by lia. clear H.
  revert G. generalize (n - 1)%nat as k. clear n.
  induction t as [|a r IH]; intros k G; destruct k; simpl in *;
    try reflexivity; try lia.
  f_equal. apply IH. lia.
Qed.

Lemma count_roles_eq (s : server) :
  count_roles s = ((readers s, writers s), s, []).
Proof.
  unfold count_roles, gets, readers, writers.
  destruct (count_loop (clients_head s) 0 0). reflexivity.
Qed.

Lemma broadcast_counts_eq (s : server) :
  broadcast_counts s = (tt, s, to_all s (snprintf 128 (counts_text s))).
Proof.
  unfold broadcast_counts.
  rewrite (bind_run _ _ _ _ _ _ (count_roles_eq s)), after_nil.
  cbn [fst snd]. apply broadcast_text_eq.
Qed.

Lemma db_get_history_snapshot_eq (rc : sqlite_rc) (limit : Z) (s : server) :
  db_get_history_snapshot rc limit s
  = (if select_available rc s then Some (snapshot_text rc limit (store s))
     else None,
     s, []).
Proof.
  unfold db_get_history_snapshot, select_available. rewrite bind_gets.
  destruct (db (store s)), (select_stmt (store s)), (bind_ok rc);
    reflexivity.
Qed.

Lemma snapshot_of_eq (rc : sqlite_rc) (s : server) :
  snapshot_of rc s
  = if select_available rc s
    then Some (snapshot_text rc HISTORY_LIMIT (store s)) else None.
Proof. unfold snapshot_of. now rewrite db_get_history_snapshot_eq. Qed.

Lemma db_get_history_snapshot_pure (rc : sqlite_rc) (s : server) :
  db_get_history_snapshot rc HISTORY_LIMIT s = (snapshot_of rc s, s, []).
Proof.
  rewrite snapshot_of_eq. apply db_get_history_snapshot_eq.
Qed.

Lemma active_writers_eq (s : server) : active_writers s = (writers s, s, []).
Proof.
  unfold active_writers.
  now rewrite (bind_run _ _ _ _ _ _ (count_roles_eq s)), after_nil.
Qed.

Lemma active_readers_eq (s : server) : active_readers s = (readers s, s, []).
Proof.
  unfold active_readers.
  now rewrite (bind_run _ _ _ _ _ _ (count_roles_eq s)), after_nil.
Qed.

Lemma can_admit_as_writer_eq (s : server) :
  can_admit_as_writer s = ((writers s =? 0) && (readers s =? 0), s, []).
Proof.
  unfold can_admit_as_writer.
  rewrite (bind_run _ _ _ _ _ _ (active_writers_eq s)), after_nil.
  destruct (writers s =? 0); [|reflexivity].
  now rewrite (bind_run _ _ _ _ _ _ (active_readers_eq s)), after_nil.
Qed.

Lemma can_admit_as_reader_eq (s : server) :
  can_admit_as_reader s = (writers s =? 0, s, []).
Proof.
  unfold can_admit_as_reader.
  now rewrite (bind_run _ _ _ _ _ _ (active_writers_eq s)), after_nil.
Qed.

Lemma bind_assoc {A B C : Type} (m : M A) (k : A -> M B) (h : B -> M C)
    (s : server) :
  bind (bind m k) h s = bind m (fun a => bind (k a) h) s.
Proof.
  unfold bind. destruct (m s) as [[a s1] o1].
  destruct (k a s1) as [[b s2] o2]. destruct (h b s2) as [[c s3] o3].
  now rewrite app_assoc.
Qed.

Lemma bind_if {A B : Type} (b : bool) (m1 m2 : M A) (k : A -> M B)
    (s : server) :
  bind (if b then m1 else m2) k s = if b then bind m1 k s else bind m2 k s.
Proof. destruct b; reflexivity. Qed.

Lemma after_after {A : Type} (o1 o2 : list io) (r : A * server * list io) :
  after o1 (after o2 r) = after (o1 ++ o2) r.
Proof. destruct r as [[a s] o]. unfold after. now rewrite app_assoc. Qed.

Lemma bind_broadcast_text {B : Type} (text : string) (k : unit -> M B)
    (s : server) :
  bind (broadcast_text text) k s = after (to_all s text) (k tt s).
Proof. now rewrite (bind_run _ _ _ _ _ _ (broadcast_text_eq text s)). Qed.

Lemma bind_broadcast_counts {B : Type} (k : unit -> M B) (s : server) :
  bind broadcast_counts k s
  = after (to_all s (snprintf 128 (counts_text s))) (k tt s).
Proof. now rewrite (bind_run _ _ _ _ _ _ (broadcast_counts_eq s)). Qed.

Lemma bind_snapshot {B : Type} (rc : sqlite_rc) (k : option string -> M B)
    (s : server) :
  bind (db_get_history_snapshot rc HISTORY_LIMIT) k s = k (snapshot_of rc s) s.
Proof.
  now rewrite (bind_run _ _ _ _ _ _ (db_get_history_snapshot_pure rc s)),
    after_nil.
Qed.

Lemma bind_can_admit_as_writer {B : Type} (k : bool -> M B) (s : server) :
  bind can_admit_as_writer k s
  = k ((writers s =? 0) && (readers s =? 0)) s.
Proof.
  now rewrite (bind_run _ _ _ _ _ _ (can_admit_as_writer_eq s)), after_nil.
Qed.

Lemma bind_can_admit_as_reader {B : Type} (k : bool -> M B) (s : server) :
  bind can_admit_as_reader k s = k (writers s =? 0) s.
Proof.
  now rewrite (bind_run _ _ _ _ _ _ (can_admit_as_reader_eq s)), after_nil.
Qed.

Lemma bind_assign {B : Type} (c : client) (f : client -> client)
    (k : unit -> M B) (s : server) :
  bind (assign c f) k s = k tt (stored c f s).
Proof. unfold assign. now rewrite bind_modify. Qed.

Lemma bind_send_to_client {B : Type} (c : client) (msg : string)
    (k : unit -> M B) (s : server) :
  bind (send_to_client c msg) k s = after [lws_write (wsi c) msg] (k tt s).
Proof. unfold send_to_client. now rewrite bind_emit. Qed.

Lemma bind_send_snapshot {B : Type} (c : client) (snap : option string)
    (k : unit -> M B) (s : server) :
  bind (send_snapshot c snap) k s = after (history_out c snap) (k tt s).
Proof.
  destruct snap as [text|]; unfold send_snapshot, history_out.
  - apply bind_send_to_client.
  - rewrite bind_ret. now rewrite after_nil.
Qed.

Lemma snapshot_of_stored (rc : sqlite_rc) (c : client) (f : client -> client)
    (s : server) :
  snapshot_of rc (stored c f s) = snapshot_of rc s.
Proof. now rewrite !snapshot_of_eq. Qed.

Lemma role_prefix_not_username (msg : string) :
  strncmp msg "role:" 5 = 0 -> (strncmp msg "username:" 9 =? 0) = false.
Proof.
  destruct msg as [|a m]; unfold strncmp; [discriminate|]. fold strncmp.
  destruct (code a =? code "r") eqn:E.
  - intros _. apply Z.eqb_eq in E. rewrite E.
    change (code "r" =? code "u") with false. cbv iota.
    now apply Z.eqb_neq.
  - intros H. apply Z.eqb_neq in E. lia.
Qed.

Lemma history_prefix_not_others (msg : string) :
  strncmp msg "get_history" 11 = 0 ->
  (strncmp msg "username:" 9 =? 0) = false /\
  (strncmp msg "role:" 5 =? 0) = false.
Proof.
  destruct msg as [|a m]; unfold strncmp; [discriminate|]. fold strncmp.
  destruct (code a =? code "g") eqn:E.
  - intros _. apply Z.eqb_eq in E. rewrite E.
    change (code "g" =? code "u") with false.
    change (code "g" =? code "r") with false. cbv iota.
    split; now apply Z.eqb_neq.
  - intros H. apply Z.eqb_neq in E. lia.
Qed.

Ltac prog_step :=
  first
    [ rewrite bind_assoc | rewrite bind_ret | rewrite bind_gets
    | rewrite bind_emit | rewrite bind_assign | rewrite bind_snapshot
    | rewrite bind_send_snapshot | rewrite bind_send_to_client
    | rewrite bind_broadcast_text | rewrite bind_broadcast_counts
    | rewrite bind_can_admit_as_writer
    | rewrite bind_can_admit_as_reader | rewrite broadcast_counts_eq
    | rewrite broadcast_text_eq | rewrite after_after ];
  cbv beta.

Lemma on_receive_unknown (w : lws) (bytes : string) (rc : sqlite_rc)
    (s : server) :
  lookup w (clients_head s) = None -> on_receive w bytes rc s = (0, s, []).
Proof.
  intros H. unfold on_receive, find_client. rewrite bind_gets, H.
  reflexivity.
Qed.

Lemma on_receive_username (w : lws) (bytes : string) (rc : sqlite_rc)
    (s : server) (c : client) :
  lookup w (clients_head s) = Some c ->
  strncmp (c_str bytes) "username:" 9 = 0 ->
  on_receive w bytes rc s
  = (0,
     stored c (set_username
                 (snprintf MAX_NAME_LEN (skip_blanks (advance 9 (c_str bytes)))))
            s,
     []).
Proof.
  intros H E. unfold on_receive, find_client. rewrite bind_gets, H.
  apply Z.eqb_eq in E. cbv zeta. rewrite E. rewrite bind_assign.
  reflexivity.
Qed.

Lemma on_receive_role (w : lws) (bytes : string) (rc : sqlite_rc)
    (s : server) (c : client) :
  lookup w (clients_head s) = Some c ->
  strncmp (c_str bytes) "role:" 5 = 0 ->
  let r := skip_blanks (advance 5 (c_str bytes)) in
  let want_writer := strcasecmp r "WRITER" =? 0 in
  let ok := if want_writer then (writers s =? 0) && (readers s =? 0)
            else writers s =? 0 in
  let s' := if ok
            then stored c (set_role (if want_writer then "WRITER" else "READER")) s
            else s in
  on_receive w bytes rc s
  = (0, s',
     ((if ok
       then history_out c (snapshot_of rc s)
            ++ [lws_write w (if want_writer then "ROLE_CONFIRMED:writer"
                             else "ROLE_CONFIRMED:reader")]
            ++ to_all s' (snprintf 200
                 ("System: " ++ username c ++
                  (if want_writer then " joined as Writer"
                   else " joined as Reader")))
       else [lws_write w (if want_writer then DENIED_WRITER else DENIED_READER)])
      ++ to_all s' (snprintf 128 (counts_text s')))%list).
Proof.
  intros H E r want_writer ok s'.
  pose proof (lookup_wsi _ _ _ H) as Hw.
  unfold on_receive, find_client. rewrite bind_gets, H. cbv zeta.
  rewrite (role_prefix_not_username _ E).
  apply Z.eqb_eq in E. rewrite E. cbv iota.
  fold r. fold want_writer.
  subst s' ok. rewrite bind_assoc, bind_if.
  destruct want_writer.
  - rewrite bind_assoc, bind_can_admit_as_writer. cbv beta.
    destruct ((writers s =? 0) && (readers s =? 0)).
    + change (snprintf MAX_ROLE_LEN "WRITER") with "WRITER".
      repeat prog_step. rewrite snapshot_of_stored, Hw.
      unfold ret, after. rewrite app_nil_r, <- !app_assoc. reflexivity.
    + repeat prog_step. rewrite Hw. unfold ret, after.
      rewrite app_nil_r. reflexivity.
  - rewrite bind_assoc, bind_can_admit_as_reader. cbv beta.
    destruct (writers s =? 0).
    + change (snprintf MAX_ROLE_LEN "READER") with "READER".
      repeat prog_step. rewrite snapshot_of_stored, Hw.
      unfold ret, after. rewrite app_nil_r, <- !app_assoc. reflexivity.
    + repeat prog_step. rewrite Hw. unfold ret, after.
      rewrite app_nil_r. reflexivity.
Qed.

Lemma on_receive_get_history (w : lws) (bytes : string) (rc : sqlite_rc)
    (s : server) (c : client) :
  lookup w (clients_head s) = Some c ->
  strncmp (c_str bytes) "get_history" 11 = 0 ->
  on_receive w bytes rc s
  = (0, s, [lws_write w match snapshot_of rc s with
                        | Some text => text
                        | None => ""
                        end]).
Proof.
  intros H E. pose proof (lookup_wsi _ _ _ H) as Hw.
  destruct (history_prefix_not_others _ E) as [E1 E2].
  unfold on_receive, find_client. rewrite bind_gets, H. cbv zeta.
  rewrite E1, E2. apply Z.eqb_eq in E. rewrite E. cbv iota.
  repeat prog_step.
  destruct (snapshot_of rc s); repeat prog_step; rewrite Hw; reflexivity.
Qed.

Lemma db_insert_message_eq (rc : sqlite_rc) (u m : string) (s : server) :
  db_insert_message rc u m s
  = if insert_succeeds rc s then (0, inserted u m s, [])
    else (-1, s, insert_log rc s).
Proof.
  unfold db_insert_message, insert_succeeds, insert_log, inserted.
  rewrite bind_gets.
  destruct (db (store s)), (insert_stmt (store s)), (bind_ok rc),
    (insert_done rc); reflexivity.
Qed.

Lemma bind_db_insert_message {B : Type} (rc : sqlite_rc) (u m : string)
    (k : Z -> M B) (s : server) :
  bind (db_insert_message rc u m) k s
  = if insert_succeeds rc s then k 0 (inserted u m s)
    else after (insert_log rc s) (k (-1) s).
Proof.
  unfold bind. rewrite db_insert_message_eq.
  destruct (insert_succeeds rc s); [|reflexivity].
  destruct (k 0 (inserted u m s)) as [[b s2] o2]. reflexivity.
Qed.

Lemma on_receive_chat (w : lws) (bytes : string) (rc : sqlite_rc)
    (s : server) (c : client) :
  lookup w (clients_head s) = Some c ->
  strncmp (c_str bytes) "username:" 9 <> 0 ->
  strncmp (c_str bytes) "role:" 5 <> 0 ->
  strncmp (c_str bytes) "get_history" 11 <> 0 ->
  on_receive w bytes rc s
  = if strcasecmp (role c) "WRITER" =? 0
    then if insert_succeeds rc s
         then (0, inserted (username c) (c_str bytes) s,
               to_all s (chat_line c (c_str bytes)))
         else (0, s,
               (insert_log rc s ++ [fprintf_stderr INSERT_WARNING]
                ++ to_all s (chat_line c (c_str bytes)))%list)
    else (0, s, [lws_write w NOT_A_WRITER]).
Proof.
  intros H E1 E2 E3. pose proof (lookup_wsi _ _ _ H) as Hw.
  apply Z.eqb_neq in E1, E2, E3.
  unfold on_receive, find_client. rewrite bind_gets, H. cbv zeta.
  rewrite E1, E2, E3. cbv iota.
  fold (chat_line c (c_str bytes)).
  destruct (strcasecmp (role c) "WRITER" =? 0); cbn [negb].
  - rewrite bind_assoc, bind_db_insert_message.
    destruct (insert_succeeds rc s); cbv beta; cbn [negb Z.eqb];
      repeat prog_step; unfold ret, after; rewrite ?app_nil_r;
      try reflexivity.
    now rewrite <- app_assoc.
  - repeat prog_step. rewrite Hw. reflexivity.
Qed.

Lemma on_closed_eq (w : lws) (s : server) :
  on_closed w s
  = (0, unlinked w s,
     (match lookup w (clients_head s) with
      | Some c =>
          if strcasecmp (role c) "WRITER" =? 0
          then to_all (unlinked w s)
                 (snprintf 200 ("System: " ++ username c ++ " disconnected."))
          else []
      | None => []
      end
      ++ to_all (unlinked w s) (snprintf 128 (counts_text (unlinked w s))))%list).
Proof.
  unfold on_closed, find_client, remove_client. rewrite bind_gets.
  fold (unlinked w).
  destruct (lookup w (clients_head s)) as [c|].
  - destruct (strcasecmp (role c) "WRITER" =? 0); cbv zeta;
      rewrite bind_modify; repeat prog_step; unfold ret, after;
      rewrite ?app_nil_r; reflexivity.
  - rewrite bind_modify; repeat prog_step; unfold ret, after.
    rewrite ?app_nil_r; reflexivity.
Qed.

Lemma on_established_eq (w : lws) (bytes : string) (rc : sqlite_rc)
    (s : server) :
  ws_callback w LWS_CALLBACK_ESTABLISHED bytes rc s
  = (0, set_clients (mk_client w "Anonymous" "NONE" :: clients_head s) s, []).
Proof. reflexivity. Qed.

(** ** Counting roles *)

Lemma tally_cons (P : client -> bool) (p : client) (l : list client) :
  tally P (p :: l) = Z.b2z (P p) + tally P l.
Proof.
  unfold tally. simpl. destruct (P p); simpl Z.b2z; simpl List.length; lia.
Qed.

Lemma tally_nonneg (P : client -> bool) (l : list client) : 0 <= tally P l.
Proof. unfold tally. lia. Qed.

Lemma count_loop_tally (l : list client) (r w : Z) :
  count_loop l r w = (r + tally is_reader l, w + tally is_writer l).
Proof.
  revert r w. induction l as [|p next IH]; intros r w.
  - unfold tally. simpl. f_equal; lia.
  - simpl count_loop. rewrite !tally_cons.
    assert (Hr : is_reader p
                 = negb (is_writer p) && (strcasecmp (role p) "READER" =? 0))
      by reflexivity.
    assert (Hw : is_writer p = (strcasecmp (role p) "WRITER" =? 0))
      by reflexivity.
    rewrite Hr, Hw.
    destruct (strcasecmp (role p) "WRITER" =? 0).
    + rewrite IH. cbn [negb andb Z.b2z]. f_equal; lia.
    + destruct (strcasecmp (role p) "READER" =? 0); rewrite IH;
        cbn [negb andb Z.b2z]; f_equal; lia.
Qed.

Lemma readers_tally (s : server) : readers s = tally is_reader (clients_head s).
Proof. unfold readers. rewrite count_loop_tally. simpl. lia. Qed.

Lemma writers_tally (s : server) : writers s = tally is_writer (clients_head s).
Proof. unfold writers. rewrite count_loop_tally. simpl. lia. Qed.

Lemma tally_unlink (P : client -> bool) (w : lws) (l : list client) :
  tally P (unlink w l) <= tally P l.
Proof.
  induction l as [|p next IH]; simpl; [lia|].
  destruct (Pos.eqb (wsi p) w); rewrite !tally_cons.
  - destruct (P p); cbn [Z.b2z]; lia.
  - lia.
Qed.

Lemma tally_rewrite_node (P : client -> bool) (w : lws)
    (f : client -> client) (l : list client) (c : client) :
  lookup w l = Some c ->
  tally P (rewrite_node w f l) = tally P l - Z.b2z (P c) + Z.b2z (P (f c)).
Proof.
  induction l as [|p next IH]; simpl; [discriminate|].
  destruct (Pos.eqb (wsi p) w).
  - intros H. inversion H; subst. rewrite !tally_cons. lia.
  - intros H. rewrite !tally_cons, (IH H). lia.
Qed.

Lemma tally_rewrite_same (P : client -> bool) (w : lws)
    (f : client -> client) (l : list client) :
  (forall p, P (f p) = P p) -> tally P (rewrite_node w f l) = tally P l.
Proof.
  intros Hf. induction l as [|p next IH]; simpl; [reflexivity|].
  destruct (Pos.eqb (wsi p) w); rewrite !tally_cons; [rewrite Hf|]; lia.
Qed.

Lemma canonical_tally (r : string) (P : client -> bool) (l : list client) :
  (forall c, canonical c -> P c = has_role r c) ->
  Forall canonical l -> tally P l = tally (has_role r) l.
Proof.
  intros HP. induction 1 as [|p next Hp _ IH]; [reflexivity|].
  rewrite !tally_cons, IH, (HP p Hp). reflexivity.
Qed.

Lemma canonical_is_writer (c : client) :
  canonical c -> is_writer c = has_role "WRITER" c.
Proof.
  unfold is_writer, has_role. intros [H|[H|H]]; rewrite H; reflexivity.
Qed.

Lemma canonical_is_reader (c : client) :
  canonical c -> is_reader c = has_role "READER" c.
Proof.
  unfold is_reader, is_writer, has_role.
  intros [H|[H|H]]; rewrite H; reflexivity.
Qed.

Lemma Forall_unlink (Q : client -> Prop) (w : lws) (l : list client) :
  Forall Q l -> Forall Q (unlink w l).
Proof.
  induction 1 as [|p next Hp Hn IH]; simpl; [constructor|].
  destruct (Pos.eqb (wsi p) w); [assumption|now constructor].
Qed.

Lemma Forall_rewrite_node (Q : client -> Prop) (w : lws)
    (f : client -> client) (l : list client) :
  (forall p, Q p -> Q (f p)) -> Forall Q l -> Forall Q (rewrite_node w f l).
Proof.
  intros Hf. induction 1 as [|p next Hp Hn IH]; simpl; [constructor|].
  destruct (Pos.eqb (wsi p) w); constructor; auto.
Qed.

Lemma exclusive_startup (d : sqlite) : exclusive (startup d).
Proof. split; [constructor|left; reflexivity]. Qed.

Lemma exclusive_same_clients (s s' : server) :
  clients_head s' = clients_head s -> exclusive s -> exclusive s'.
Proof.
  unfold exclusive, writers, readers. intros ->. exact (fun H => H).
Qed.

Lemma exclusive_established (w : lws) (s : server) :
  exclusive s ->
  exclusive (set_clients (mk_client w "Anonymous" "NONE" :: clients_head s) s).
Proof.
  intros [Hc Hx]. split.
  - constructor; [left; reflexivity|exact Hc].
  - rewrite writers_tally, readers_tally in *. simpl clients_head.
    rewrite !tally_cons. exact Hx.
Qed.

Lemma exclusive_unlinked (w : lws) (s : server) :
  exclusive s -> exclusive (unlinked w s).
Proof.
  intros [Hc Hx]. split.
  - now apply Forall_unlink.
  - rewrite writers_tally, readers_tally in *. simpl clients_head.
    pose proof (tally_unlink is_writer w (clients_head s)).
    pose proof (tally_unlink is_reader w (clients_head s)).
    pose proof (tally_nonneg is_writer (unlink w (clients_head s))).
    pose proof (tally_nonneg is_reader (unlink w (clients_head s))).
    lia.
Qed.

Lemma exclusive_username (c : client) (name : string) (s : server) :
  exclusive s -> exclusive (stored c (set_username name) s).
Proof.
  intros [Hc Hx]. split.
  - apply Forall_rewrite_node; [|exact Hc]. intros p Hp. exact Hp.
  - rewrite writers_tally, readers_tally in *. simpl clients_head.
    rewrite !tally_rewrite_same by reflexivity. exact Hx.
Qed.

Lemma exclusive_writer (w : lws) (c : client) (s : server) :
  lookup w (clients_head s) = Some c ->
  writers s = 0 -> readers s = 0 ->
  exclusive s ->
  writers (stored c (set_role "WRITER") s) = 1 /\
  readers (stored c (set_role "WRITER") s) = 0 /\
  exclusive (stored c (set_role "WRITER") s).
Proof.
  intros H Hw Hr [Hc _]. pose proof (lookup_wsi _ _ _ H) as Hc'.
  assert (G : writers (stored c (set_role "WRITER") s) = 1 /\
              readers (stored c (set_role "WRITER") s) = 0).
  { rewrite writers_tally, readers_tally in *. simpl clients_head.
    rewrite Hc', !(tally_rewrite_node _ _ _ _ _ H).
    change (is_writer (set_role "WRITER" c)) with true.
    change (is_reader (set_role "WRITER" c)) with false.
    pose proof (tally_rewrite_node is_writer w (set_role "NONE") _ _ H) as T1.
    pose proof (tally_rewrite_node is_reader w (set_role "NONE") _ _ H) as T2.
    change (is_writer (set_role "NONE" c)) with false in T1.
    change (is_reader (set_role "NONE" c)) with false in T2.
    pose proof (tally_nonneg is_writer
                  (rewrite_node w (set_role "NONE") (clients_head s))).
    pose proof (tally_nonneg is_reader
                  (rewrite_node w (set_role "NONE") (clients_head s))).
    destruct (is_writer c), (is_reader c); simpl Z.b2z in *; lia. }
  destruct G as [G1 G2]. repeat split; auto.
  apply Forall_rewrite_node; [|exact Hc]. intros p _. right; right. reflexivity.
Qed.

Lemma exclusive_reader (w : lws) (c : client) (s : server) :
  lookup w (clients_head s) = Some c ->
  writers s = 0 ->
  exclusive s ->
  writers (stored c (set_role "READER") s) = 0 /\
  exclusive (stored c (set_role "READER") s).
Proof.
  intros H Hw [Hc _]. pose proof (lookup_wsi _ _ _ H) as Hc'.
  assert (G : writers (stored c (set_role "READER") s) = 0).
  { rewrite writers_tally in *. simpl clients_head.
    rewrite Hc', (tally_rewrite_node _ _ _ _ _ H).
    change (is_writer (set_role "READER" c)) with false.
    pose proof (tally_rewrite_node is_writer w (set_role "NONE") _ _ H) as T1.
    change (is_writer (set_role "NONE" c)) with false in T1.
    pose proof (tally_nonneg is_writer
                  (rewrite_node w (set_role "NONE") (clients_head s))).
    destruct (is_writer c); simpl Z.b2z in *; lia. }
  repeat split; auto.
  apply Forall_rewrite_node; [|exact Hc]. intros p _. right; left. reflexivity.
Qed.

Lemma exclusive_deliver (s : server) (e : callback) :
  exclusive s -> exclusive (deliver s e).
Proof.
  intros Hx. destruct e as [w reason bytes rc]. unfold deliver, globals.
  cbn [cb_wsi cb_reason cb_in cb_rc]. destruct reason.
  2: change (ws_callback w LWS_CALLBACK_RECEIVE bytes rc s)
       with (on_receive w bytes rc s).
  3: change (ws_callback w LWS_CALLBACK_CLOSED bytes rc s)
       with (on_closed w s).
  - rewrite on_established_eq. now apply exclusive_established.
  - destruct (lookup w (clients_head s)) as [c|] eqn:H.
    2: { rewrite on_receive_unknown by exact H. exact Hx. }
    destruct (Z.eq_dec (strncmp (c_str bytes) "username:" 9) 0) as [E1|E1].
    { rewrite (on_receive_username _ _ _ _ _ H E1).
      now apply exclusive_username. }
    destruct (Z.eq_dec (strncmp (c_str bytes) "role:" 5) 0) as [E2|E2].
    { rewrite (on_receive_role _ _ _ _ _ H E2). cbn [fst snd].
      destruct (strcasecmp _ "WRITER" =? 0).
      - destruct (writers s =? 0) eqn:W; [|exact Hx].
        destruct (readers s =? 0) eqn:R; [|exact Hx].
        apply Z.eqb_eq in W, R. cbn [andb].
        now apply (exclusive_writer w).
      - destruct (writers s =? 0) eqn:W; [|exact Hx].
        apply Z.eqb_eq in W. now apply (exclusive_reader w). }
    destruct (Z.eq_dec (strncmp (c_str bytes) "get_history" 11) 0) as [E3|E3].
    { rewrite (on_receive_get_history _ _ _ _ _ H E3). exact Hx. }
    rewrite (on_receive_chat _ _ _ _ _ H E1 E2 E3).
    destruct (strcasecmp (role c) "WRITER" =? 0); [|exact Hx].
    destruct (insert_succeeds rc s); exact Hx.
  - rewrite on_closed_eq. now apply exclusive_unlinked.
  - exact Hx.
Qed.

Lemma exclusive_run (events : list callback) (s : server) :
  exclusive s -> exclusive (run events s).
Proof.
  revert s. induction events as [|e rest IH]; intros s Hx; [exact Hx|].
  apply IH. now apply exclusive_deliver.
Qed.

(** C1. Role mutual exclusion.  In the state after any run of callbacks from
    the start of the service loop, [count_roles] reports exactly the number of
    sessions whose role is READER and the number whose role is WRITER; there
    is at most one Writer, and when there is one there is no Reader.  Readers
    may coexist: after [two_readers] there are two. *)
Theorem role_mutual_exclusion :
  forall d : sqlite,
    (forall events : list callback,
        let s := run events (startup d) in
        let n_readers := tally (has_role "READER") (clients_head s) in
        let n_writers := tally (has_role "WRITER") (clients_head s) in
        value (count_roles s) = (n_readers, n_writers) /\
        (n_writers = 0 \/ n_writers = 1) /\
        (n_writers = 1 -> n_readers = 0)) /\
    tally (has_role "READER") (clients_head (run two_readers (startup d))) = 2.
Proof.
  intros d. split; [|destruct d as [[] [] [] rows]; reflexivity].
  intros events s n_readers n_writers.
  destruct (exclusive_run events (startup d) (exclusive_startup d))
    as [Hc Hx].
  fold s in Hc, Hx.
  assert (Hr : readers s = n_readers).
  { rewrite readers_tally.
    apply (canonical_tally "READER"); [exact canonical_is_reader|exact Hc]. }
  assert (Hw : writers s = n_writers).
  { rewrite writers_tally.
    apply (canonical_tally "WRITER"); [exact canonical_is_writer|exact Hc]. }
  rewrite Hr, Hw in Hx. split; [|lia].
  rewrite count_roles_eq. unfold value. cbn [fst snd]. now rewrite Hr, Hw.
Qed.

(** ** Case-insensitive comparison *)

Lemma code_range (a : ascii) : 0 <= code a < 256.
Proof. unfold code. pose proof (N_ascii_bounded a). lia. Qed.

Lemma code_inj (a b : ascii) : code a = code b -> a = b.
Proof.
  unfold code. intros H. apply N2Z.inj in H.
  rewrite <- (ascii_N_embedding a), <- (ascii_N_embedding b). now rewrite H.
Qed.

Lemma code_NUL (a : ascii) : code a = 0 -> a = NUL.
Proof. intros H. apply code_inj. exact H. Qed.

Lemma code_toupper (a : ascii) :
  code (toupper a)
  = if (97 <=? code a) && (code a <=? 122) then code a - 32 else code a.
Proof.
  unfold toupper.
  destruct ((97 <=? code a) && (code a <=? 122)) eqn:E; [|reflexivity].
  apply andb_true_iff in E. destruct E as [E1 E2].
  apply Z.leb_le in E1, E2. unfold code at 1.
  rewrite N_ascii_embedding by lia. lia.
Qed.

Lemma fold_case (a b : ascii) : tolower a = tolower b <-> toupper a = toupper b.
Proof.
  pose proof (code_range a). pose proof (code_range b).
  split; intros E.
  - apply code_inj. rewrite !code_toupper. unfold tolower in E.
    destruct (Z.leb_spec 65 (code a)), (Z.leb_spec (code a) 90),
      (Z.leb_spec 65 (code b)), (Z.leb_spec (code b) 90),
      (Z.leb_spec 97 (code a)), (Z.leb_spec (code a) 122),
      (Z.leb_spec 97 (code b)), (Z.leb_spec (code b) 122);
      cbn [andb] in *; lia.
  - apply (f_equal code) in E. rewrite !code_toupper in E. unfold tolower.
    destruct (Z.leb_spec 65 (code a)), (Z.leb_spec (code a) 90),
      (Z.leb_spec 65 (code b)), (Z.leb_spec (code b) 90),
      (Z.leb_spec 97 (code a)), (Z.leb_spec (code a) 122),
      (Z.leb_spec 97 (code b)), (Z.leb_spec (code b) 122);
      cbn [andb] in *; lia.
Qed.

Lemma tolower_zero (a : ascii) : tolower a = 0 -> a = NUL.
Proof.
  unfold tolower. pose proof (code_range a). intros E. apply code_NUL.
  destruct ((65 <=? code a) && (code a <=? 90)); lia.
Qed.

Lemma strcasecmp_zero (s t : string) :
  nul_free s -> nul_free t ->
  (strcasecmp s t = 0 <-> uppercase s = uppercase t).
Proof.
  revert t. induction s as [|a r IH]; intros [|b u] Hs Ht;
    unfold strcasecmp; fold strcasecmp; cbn [uppercase].
  - tauto.
  - destruct Ht as [Hb _]. split; [|discriminate].
    intros E. exfalso. apply Hb, tolower_zero. lia.
  - destruct Hs as [Ha _]. split; [|discriminate].
    intros E. exfalso. now apply Ha, tolower_zero.
  - destruct Hs as [_ Hs], Ht as [_ Ht].
    destruct (tolower a =? tolower b) eqn:E.
    + apply Z.eqb_eq, fold_case in E. rewrite (IH u Hs Ht), E.
      split; [now intros ->|]. intros G. now inversion G.
    + apply Z.eqb_neq in E. split; [lia|].
      intros G. inversion G as [[G1 G2]]. now apply fold_case in G1.
Qed.

Lemma nul_free_c_str (bytes : string) : nul_free (c_str bytes).
Proof.
  induction bytes as [|a r IH]; unfold c_str; fold c_str; [exact I|].
  destruct (Ascii.eqb a NUL) eqn:E; [exact I|].
  split; [|exact IH]. now apply Ascii.eqb_neq.
Qed.

Lemma nul_free_advance (n : nat) (s : string) :
  nul_free s -> nul_free (advance n s).
Proof.
  revert s. induction n as [|k IH]; intros [|a r] H; try exact H.
  unfold advance; fold advance. apply IH. exact (proj2 H).
Qed.

Lemma nul_free_skip_blanks (s : string) :
  nul_free s -> nul_free (skip_blanks s).
Proof.
  induction s as [|a r IH]; intros H; [exact I|].
  unfold skip_blanks; fold skip_blanks.
  destruct (Ascii.eqb a " " || Ascii.eqb a TAB); [|exact H].
  apply IH. exact (proj2 H).
Qed.

Lemma lookup_rewrite_node (w : lws) (f : client -> client) (l : list client)
    (c : client) :
  (forall p, wsi (f p) = wsi p) ->
  lookup w l = Some c -> lookup w (rewrite_node w f l) = Some (f c).
Proof.
  intros Hf. induction l as [|p next IH]; simpl; [discriminate|].
  destruct (Pos.eqb (wsi p) w) eqn:E; simpl.
  - intros H. inversion H; subst. now rewrite Hf, E.
  - intros H. rewrite E. now apply IH.
Qed.

(** ** The admission decision of the specification *)

Lemma requested_role_code (bytes : string) :
  (strcasecmp (skip_blanks (advance 5 (c_str bytes))) "WRITER" =? 0)
  = match RequestedRole (advance 5 (c_str bytes)) with
    | Writer => true
    | Reader => false
    end.
Proof.
  unfold RequestedRole.
  assert (N : nul_free (skip_blanks (advance 5 (c_str bytes)))).
  { apply nul_free_skip_blanks, nul_free_advance, nul_free_c_str. }
  pose proof (strcasecmp_zero _ "WRITER" N) as Z0.
  assert (W : nul_free "WRITER") by (cbn; repeat split; discriminate).
  specialize (Z0 W). change (uppercase "WRITER") with "WRITER" in Z0.
  destruct (String.eqb_spec
              (uppercase (skip_blanks (advance 5 (c_str bytes)))) "WRITER")
    as [E|E].
  - apply Z.eqb_eq. now apply Z0.
  - apply Z.eqb_neq. intros G. now apply E, Z0.
Qed.

(** The outcome of a [role:] frame, in the words of the specification. *)
Lemma on_receive_role_spec (w : lws) (bytes : string) (rc : sqlite_rc)
    (s : server) (c : client) :
  lookup w (clients_head s) = Some c ->
  strncmp (c_str bytes) "role:" 5 = 0 ->
  let req := RequestedRole (advance 5 (c_str bytes)) in
  let s' := stored c (set_role (role_name req)) s in
  on_receive w bytes rc s
  = if CanAdmit req (readers s) (writers s)
    then (0, s',
          (history_out c (snapshot_of rc s)
           ++ [lws_write w (confirmation req)]
           ++ to_all s' (snprintf 200 (join_notice req c))
           ++ to_all s' (snprintf 128 (counts_text s')))%list)
    else (0, s,
          (lws_write w (denial req)
           :: to_all s (snprintf 128 (counts_text s)))).
Proof.
  intros H E req s'. rewrite (on_receive_role _ _ _ _ _ H E). cbv zeta.
  rewrite requested_role_code. subst s'. fold req. unfold join_notice.
  destruct req; cbn [CanAdmit role_name confirmation denial];
    unfold CanAdmitReader, CanAdmitWriter.
  - destruct (writers s =? 0); [|reflexivity].
    rewrite <- !app_assoc. reflexivity.
  - destruct ((writers s =? 0) && (readers s =? 0)); [|reflexivity].
    rewrite <- !app_assoc. reflexivity.
Qed.




(** ** Granted and denied requests *)

(** C3, counterexample.  A fresh session is granted the Writer role while
    [sqlite3_bind_int] fails: [db_get_history_snapshot] returns the null
    pointer, no history is sent, and the first message is the confirmation. *)
Lemma grant_sequence_counterexample :
  CanAdmit (RequestedRole (advance 5 (c_str "role:writer")))
           (readers lone_session) (writers lone_session) = true
  /\ output (ws_callback 1 LWS_CALLBACK_RECEIVE "role:writer"
               sqlite_bind_fails lone_session)
     = [ lws_write 1 "ROLE_CONFIRMED:writer";
         lws_write 1 "System: Anonymous joined as Writer";
         lws_write 1 "SYSTEM_COUNTS:0:1" ]
  /\ ~ history_always_first 1 "role:writer" sqlite_bind_fails lone_session.
Proof.
  split; [reflexivity|]. split; [reflexivity|].
  intros [snap [rest H]]. vm_compute in H. discriminate H.
Qed.

(** C3, amended.  For every granted [role:] request the role is stored in the
    session's node and the output is, in this order: the snapshot of at most
    HISTORY_LIMIT = 500 records, sent to the requester alone, when
    [db_get_history_snapshot] returns one (nothing when it returns the null
    pointer); the confirmation, to the requester alone; the join notice to
    every registered session; the counts to every registered session.  The
    requester is one of the registered sessions. *)
Theorem grant_sequence :
  forall (w : lws) (bytes : string) (rc : sqlite_rc) (s : server) (c : client),
    lookup w (clients_head s) = Some c ->
    strncmp (c_str bytes) "role:" 5 = 0 ->
    let req := RequestedRole (advance 5 (c_str bytes)) in
    CanAdmit req (readers s) (writers s) = true ->
    let s' := stored c (set_role (role_name req)) s in
    let snap := value (db_get_history_snapshot rc 500 s) in
    ws_callback w LWS_CALLBACK_RECEIVE bytes rc s
    = (0, s',
       (match snap with
        | Some text => [lws_write w text]
        | None => []
        end
        ++ [lws_write w (confirmation req)]
        ++ map (fun p => lws_write (wsi p) (snprintf 200 (join_notice req c)))
               (clients_head s')
        ++ map (fun p => lws_write (wsi p) (snprintf 128 (counts_text s')))
               (clients_head s'))%list)
    /\ lookup w (clients_head s') = Some (set_role (role_name req) c)
    /\ In w (map wsi (clients_head s'))
    /\ store s' = store s.
Proof.
  intros w bytes rc s c H E req G s' snap. cbn [ws_callback].
  rewrite (on_receive_role_spec _ _ _ _ _ H E). cbv zeta. fold req.
  rewrite G. fold s'. pose proof (lookup_wsi _ _ _ H) as Hw.
  assert (L : lookup w (clients_head s') = Some (set_role (role_name req) c)).
  { subst s'. unfold stored, set_clients. cbn [clients_head]. rewrite Hw.
    apply lookup_rewrite_node; [reflexivity|exact H]. }
  split; [|split; [exact L|split; [|reflexivity]]].
  - unfold history_out, to_all, snapshot_of. fold snap. rewrite Hw.
    reflexivity.
  - clear - L. induction (clients_head s') as [|p next IH]; simpl in *;
      [discriminate|].
    destruct (Pos.eqb (wsi p) w) eqn:E; [left; now apply Pos.eqb_eq|].
    right. now apply IH.
Qed.

Lemma grant_sequence_witness :
  lookup 1 (clients_head lone_session) = Some (mk_client 1 "Anonymous" "NONE")
  /\ strncmp (c_str "role:writer") "role:" 5 = 0
  /\ CanAdmit (RequestedRole (advance 5 (c_str "role:writer")))
              (readers lone_session) (writers lone_session) = true
  /\ ws_callback 1 LWS_CALLBACK_RECEIVE "role:writer" sqlite_ok lone_session
     = (0,
        mk_server [mk_client 1 "Anonymous" "WRITER"]
                  (mk_sqlite true true true []),
        [ lws_write 1 "";
          lws_write 1 "ROLE_CONFIRMED:writer";
          lws_write 1 "System: Anonymous joined as Writer";
          lws_write 1 "SYSTEM_COUNTS:0:1" ]).
Proof.
  split; [reflexivity|]. split; [reflexivity|]. split; [reflexivity|].
  exact (proj1 (grant_sequence 1 "role:writer" sqlite_ok lone_session
                  (mk_client 1 "Anonymous" "NONE") eq_refl eq_refl eq_refl)).
Defined.

(** C4, counterexample.  The second session asks to write and is denied;
    [broadcast_counts] runs all the same and the Writer receives the counts. *)
Lemma denied_request_counterexample :
  CanAdmit (RequestedRole (advance 5 (c_str "role:writer")))
           (readers writer_inside) (writers writer_inside) = false
  /\ output (ws_callback 2 LWS_CALLBACK_RECEIVE "role:writer" sqlite_ok
               writer_inside)
     = [ lws_write 2 DENIED_WRITER;
         lws_write 2 "SYSTEM_COUNTS:0:1";
         lws_write 1 "SYSTEM_COUNTS:0:1" ]
  /\ ~ nothing_to_others 2
         (output (ws_callback 2 LWS_CALLBACK_RECEIVE "role:writer" sqlite_ok
                    writer_inside)).
Proof.
  split; [reflexivity|]. split; [reflexivity|].
  intros H. specialize (H 1%positive "SYSTEM_COUNTS:0:1").
  assert (G : 1%positive = 2%positive); [|discriminate G].
  apply H. vm_compute. right. right. left. reflexivity.
Qed.

(** C4, amended.  For every denied [role:] request the globals (registry and
    store) are unchanged, exactly one [ROLE_DENIED:] message is sent, to the
    requester, and the only other output is the broadcast of the unchanged
    counts to every registered session. *)
Theorem denied_request :
  forall (w : lws) (bytes : string) (rc : sqlite_rc) (s : server) (c : client),
    lookup w (clients_head s) = Some c ->
    strncmp (c_str bytes) "role:" 5 = 0 ->
    let req := RequestedRole (advance 5 (c_str bytes)) in
    CanAdmit req (readers s) (writers s) = false ->
    ws_callback w LWS_CALLBACK_RECEIVE bytes rc s
    = (0, s,
       lws_write w (denial req)
       :: map (fun p => lws_write (wsi p) (snprintf 128 (counts_text s)))
              (clients_head s))
    /\ (denial Writer = "ROLE_DENIED:A writer or readers are already inside.")
    /\ (denial Reader = "ROLE_DENIED:A writer is already inside.").
Proof.
  intros w bytes rc s c H E req G. cbn [ws_callback].
  rewrite (on_receive_role_spec _ _ _ _ _ H E). cbv zeta. fold req.
  rewrite G. repeat split.
Qed.

Lemma denied_request_witness :
  lookup 2 (clients_head writer_inside) = Some (mk_client 2 "Anonymous" "NONE")
  /\ strncmp (c_str "role:reader") "role:" 5 = 0
  /\ CanAdmit (RequestedRole (advance 5 (c_str "role:reader")))
              (readers writer_inside) (writers writer_inside) = false
  /\ ws_callback 2 LWS_CALLBACK_RECEIVE "role:reader" sqlite_ok writer_inside
     = (0, writer_inside,
        [ lws_write 2 "ROLE_DENIED:A writer is already inside.";
          lws_write 2 "SYSTEM_COUNTS:0:1";
          lws_write 1 "SYSTEM_COUNTS:0:1" ]).
Proof.
  split; [reflexivity|]. split; [reflexivity|]. split; [reflexivity|].
  exact (proj1 (denied_request 2 "role:reader" sqlite_ok writer_inside
                  (mk_client 2 "Anonymous" "NONE") eq_refl eq_refl eq_refl)).
Defined.

(** ** Chat *)

(** C5. Chat from a session that is not a Writer.  A frame that matches no
    command prefix, from a registered session whose role does not compare
    equal to WRITER (READER and NONE do not), leaves the globals, and so the
    history store, unchanged; the whole output is one rejection notice to the
    sender: nothing is broadcast and no counts are sent. *)
Theorem non_writer_chat_rejected :
  forall (w : lws) (bytes : string) (rc : sqlite_rc) (s : server) (c : client),
    lookup w (clients_head s) = Some c ->
    strncmp (c_str bytes) "username:" 9 <> 0 ->
    strncmp (c_str bytes) "role:" 5 <> 0 ->
    strncmp (c_str bytes) "get_history" 11 <> 0 ->
    strcasecmp (role c) "WRITER" <> 0 ->
    ws_callback w LWS_CALLBACK_RECEIVE bytes rc s
    = (0, s, [lws_write w NOT_A_WRITER])
    /\ strcasecmp "READER" "WRITER" <> 0
    /\ strcasecmp "NONE" "WRITER" <> 0.
Proof.
  intros w bytes rc s c H E1 E2 E3 R. cbn [ws_callback].
  rewrite (on_receive_chat _ _ _ _ _ H E1 E2 E3).
  apply Z.eqb_neq in R. rewrite R.
  repeat split; discriminate.
Qed.

Lemma non_writer_chat_rejected_witness :
  lookup 2 (clients_head reader_inside) = Some (mk_client 2 "Bob" "READER")
  /\ ws_callback 2 LWS_CALLBACK_RECEIVE "let me in" sqlite_ok reader_inside
     = (0, reader_inside, [lws_write 2 NOT_A_WRITER]).
Proof.
  split; [reflexivity|].
  refine (proj1 (non_writer_chat_rejected 2 "let me in" sqlite_ok reader_inside
                   (mk_client 2 "Bob" "READER") eq_refl _ _ _ _));
    vm_compute; discriminate.
Defined.

(** ** Strings and the snapshot text *)

Lemma append_nil_r (s : string) : s ++ "" = s.
Proof. induction s as [|a r IH]; simpl; [reflexivity|now rewrite IH]. Qed.

Lemma append_assoc (s t u : string) : (s ++ t) ++ u = s ++ t ++ u.
Proof. induction s as [|a r IH]; simpl; [reflexivity|now rewrite IH]. Qed.

Lemma length_append (s t : string) :
  String.length (s ++ t) = (String.length s + String.length t)%nat.
Proof. induction s as [|a r IH]; simpl; [reflexivity|now rewrite IH]. Qed.

Lemma history_line_eq (row : string * string) :
  history_line row = record_line row.
Proof.
  unfold history_line, record_line, strlen. apply snprintf_short.
  rewrite !length_append. simpl String.length. lia.
Qed.

Lemma firstn_succ_nth (l : list string) (j : nat) :
  (j < List.length l)%nat ->
  firstn (S j) l = (firstn j l ++ [nth j l ""])%list.
Proof.
  revert j. induction l as [|x l IH]; intros j H; simpl in H; [lia|].
  destruct j as [|j]; [reflexivity|].
  change (firstn (S (S j)) (x :: l)) with (x :: firstn (S j) l).
  rewrite IH by lia. reflexivity.
Qed.

Lemma strcat_rows_spec (rows : list string) (i : nat) (out : string) :
  (i <= List.length rows)%nat ->
  strcat_rows rows i out = out ++ String.concat LF (rev (firstn i rows)).
Proof.
  revert out. induction i as [|j IH]; intros out H.
  - simpl. now rewrite append_nil_r.
  - unfold strcat_rows; fold strcat_rows. cbv zeta.
    rewrite IH by lia. rewrite firstn_succ_nth by lia.
    rewrite rev_app_distr. cbn [rev app].
    destruct j as [|j].
    + cbn. now rewrite append_nil_r.
    + change (0 <? S j)%nat with true. cbv iota.
      destruct (rev (firstn (S j) rows)) as [|y ys] eqn:R.
      * apply (f_equal (@List.length string)) in R.
        rewrite length_rev, length_firstn in R. cbn [List.length] in R.
        lia.
      * cbn [String.concat]. rewrite !append_assoc. reflexivity.
Qed.

Lemma strcat_rows_all (rows : list string) :
  strcat_rows rows (List.length rows) "" = String.concat LF (rev rows).
Proof.
  rewrite strcat_rows_spec by lia. now rewrite firstn_all.
Qed.

Lemma sqlite3_select_recent (limit : Z) (d : sqlite) :
  0 <= limit ->
  sqlite3_select limit d = rev (most_recent (Z.to_nat limit) (messages d)).
Proof.
  intros H. unfold sqlite3_select, most_recent.
  destruct (Z.ltb_spec limit 0); [lia|]. apply firstn_rev.
Qed.

Lemma most_recent_length {A : Type} (n : nat) (l : list A) :
  List.length (most_recent n l) = Nat.min n (List.length l).
Proof. unfold most_recent. rewrite length_skipn. lia. Qed.

Lemma most_recent_suffix {A : Type} (n : nat) (l : list A) :
  l = (firstn (List.length l - n) l ++ most_recent n l)%list.
Proof. unfold most_recent. now rewrite firstn_skipn. Qed.

Lemma snapshot_value (rc : sqlite_rc) (limit : Z) (s : server) :
  value (db_get_history_snapshot rc limit s)
  = if select_available rc s
    then Some (String.concat LF
                 (map record_line
                      (rev (sqlite3_rows rc (sqlite3_select limit (store s))))))
    else None.
Proof.
  rewrite db_get_history_snapshot_eq. unfold value. cbn [fst].
  destruct (select_available rc s); [|reflexivity].
  unfold snapshot_text. cbv zeta.
  rewrite strcat_rows_all, <- map_rev. f_equal. f_equal.
  apply map_ext. exact history_line_eq.
Qed.

Lemma snapshot_value_cut (rc : sqlite_rc) (limit : Z) (s : server) (k : nat) :
  select_available rc s = true ->
  select_error rc = Some k ->
  0 <= limit ->
  value (db_get_history_snapshot rc limit s)
  = Some (String.concat LF
            (map record_line
                 (most_recent (Nat.min k (Z.to_nat limit))
                              (messages (store s))))).
Proof.
  intros A E L.
  rewrite snapshot_value, A. unfold sqlite3_rows. rewrite E.
  rewrite sqlite3_select_recent by exact L.
  rewrite firstn_rev, rev_involutive. unfold most_recent.
  rewrite skipn_skipn, length_skipn.
  set (len := List.length (messages (store s))).
  set (n := Z.to_nat limit).
  replace (len - (len - n) - k + (len - n))%nat with (len - Nat.min k n)%nat
    by lia.
  reflexivity.
Qed.

(** C7, counterexample.  On a table of three records and a limit of 500:
    when [sqlite3_step] reports an error after the first row the snapshot is
    the newest record alone, not the three; when [sqlite3_bind_int] fails,
    and when the handles are null, the result is the null pointer, which is
    neither the records nor the empty text. *)
Lemma snapshot_contents_counterexample :
  value (db_get_history_snapshot sqlite_step_fails 500 three_records)
  = Some "c: three"
  /\ ~ snapshot_as_specified sqlite_step_fails 500 three_records
  /\ value (db_get_history_snapshot sqlite_bind_fails 500 three_records)
     = None
  /\ ~ snapshot_as_specified sqlite_bind_fails 500 three_records
  /\ value (db_get_history_snapshot sqlite_ok 500 three_records_closed) = None
  /\ ~ snapshot_as_specified sqlite_ok 500 three_records_closed.
Proof.
  unfold snapshot_as_specified.
  split; [reflexivity|]. split; [vm_compute; discriminate|].
  split; [reflexivity|]. split; [vm_compute; discriminate|].
  split; [reflexivity|]. vm_compute. discriminate.
Qed.

(** C7, amended.  [db_get_history_snapshot] changes nothing and writes
    nothing.  When the handles are there, the binding succeeds and the query
    steps to SQLITE_DONE, the text for a limit of at least 0 is the [limit]
    most recently inserted records (all of them when there are fewer), each
    as [<username>: <message>], joined by newlines, oldest first: the reverse
    of the newest-first rows of the query.  An empty table gives the empty
    text.  When the step reports an error after [k] rows, the text holds only
    the [k] most recent of those records.  Without the handles or the
    binding the result is the null pointer, not a text; what [get_history]
    then sends is the empty text. *)
Theorem snapshot_contents :
  forall (rc : sqlite_rc) (limit : Z) (s : server),
    let rows := messages (store s) in
    let n := Z.to_nat limit in
    db_get_history_snapshot rc limit s
    = (value (db_get_history_snapshot rc limit s), s, [])
    /\ (select_available rc s = true -> select_error rc = None -> 0 <= limit ->
        sqlite3_select limit (store s) = rev (most_recent n rows)
        /\ value (db_get_history_snapshot rc limit s)
           = Some (String.concat LF (map record_line (most_recent n rows))))
    /\ List.length (most_recent n rows) = Nat.min n (List.length rows)
    /\ (exists older, rows = (older ++ most_recent n rows)%list)
    /\ (select_available rc s = true -> rows = [] ->
        value (db_get_history_snapshot rc limit s) = Some "")
    /\ (select_available rc s = true ->
        forall k : nat, select_error rc = Some k -> 0 <= limit ->
        value (db_get_history_snapshot rc limit s)
        = Some (String.concat LF
                  (map record_line (most_recent (Nat.min k n) rows))))
    /\ (select_available rc s = false ->
        value (db_get_history_snapshot rc limit s) = None
        /\ forall (w : lws) (c : client) (bytes : string),
            lookup w (clients_head s) = Some c ->
            strncmp (c_str bytes) "get_history" 11 = 0 ->
            ws_callback w LWS_CALLBACK_RECEIVE bytes rc s
            = (0, s, [lws_write w ""])).
Proof.
  intros rc limit s rows n.
  split; [now rewrite db_get_history_snapshot_eq|].
  split.
  { intros A E L. split; [now apply sqlite3_select_recent|].
    rewrite snapshot_value, A. unfold sqlite3_rows. rewrite E.
    rewrite sqlite3_select_recent by exact L. now rewrite rev_involutive. }
  split; [apply most_recent_length|].
  split; [eexists; apply most_recent_suffix|].
  split.
  { intros A E. rewrite snapshot_value, A.
    unfold sqlite3_rows, sqlite3_select. fold rows. rewrite E.
    cbn [rev]. rewrite firstn_nil.
    destruct (limit <? 0), (select_error rc) as [k|];
      try rewrite firstn_nil; reflexivity. }
  split.
  { intros A k E L. now apply snapshot_value_cut. }
  intros A. split; [now rewrite snapshot_value, A|].
  intros w c bytes H E. cbn [ws_callback].
  rewrite (on_receive_get_history _ _ _ _ _ H E).
  unfold snapshot_of. now rewrite snapshot_value, A.
Qed.

(** ** Accepted chat *)

(** C6, counterexample.  The Writer with the empty display name sends [hi]:
    the line broadcast names it [Anon]. *)
Lemma accepted_chat_counterexample :
  lookup 1 (clients_head nameless_writer) = Some (mk_client 1 "" "WRITER")
  /\ output (ws_callback 1 LWS_CALLBACK_RECEIVE "hi" sqlite_ok nameless_writer)
     = [lws_write 1 "Anon: hi"]
  /\ ~ broadcast_as_username_line 1 "hi" sqlite_ok nameless_writer
         (mk_client 1 "" "WRITER").
Proof.
  split; [reflexivity|]. split; [reflexivity|].
  unfold broadcast_as_username_line. vm_compute.
  intros [H|[]]. discriminate H.
Qed.

(** C6, amended.  For every frame that matches no command prefix, from a
    registered session whose role compares equal to WRITER, one line is sent
    to every registered session whether the insert succeeds or fails: the
    display name, or [Anon] when the display name is empty, then [: ], then
    the message, cut to MAX_MSG_LEN - 1 bytes.  It is [<username>: <message>]
    when the display name is not empty and the line fits.  A failed insert
    is logged before the broadcast and changes nothing; the registry is the
    same in both cases and the callback returns 0. *)
Theorem accepted_chat_broadcast :
  forall (w : lws) (bytes : string) (rc : sqlite_rc) (s : server) (c : client),
    lookup w (clients_head s) = Some c ->
    strncmp (c_str bytes) "username:" 9 <> 0 ->
    strncmp (c_str bytes) "role:" 5 <> 0 ->
    strncmp (c_str bytes) "get_history" 11 <> 0 ->
    strcasecmp (role c) "WRITER" = 0 ->
    let msg := c_str bytes in
    let name := match username c with
                | EmptyString => "Anon"
                | _ => username c
                end in
    let line := take 4095 (name ++ ": " ++ msg) in
    let result := ws_callback w LWS_CALLBACK_RECEIVE bytes rc s in
    value result = 0
    /\ clients_head (globals result) = clients_head s
    /\ (insert_succeeds rc s = true ->
        globals result = inserted (username c) msg s
        /\ output result
           = map (fun p => lws_write (wsi p) line) (clients_head s))
    /\ (insert_succeeds rc s = false ->
        globals result = s
        /\ output result
           = (insert_log rc s
              ++ [fprintf_stderr INSERT_WARNING]
              ++ map (fun p => lws_write (wsi p) line) (clients_head s))%list)
    /\ (username c <> "" ->
        (String.length (username c ++ ": " ++ msg) < 4096)%nat ->
        line = username c ++ ": " ++ msg).
Proof.
  intros w bytes rc s c H E1 E2 E3 R msg name line result.
  subst result. cbn [ws_callback].
  rewrite (on_receive_chat _ _ _ _ _ H E1 E2 E3).
  apply Z.eqb_eq in R. rewrite R.
  assert (L : chat_line c (c_str bytes) = line) by reflexivity.
  rewrite L. unfold to_all.
  destruct (insert_succeeds rc s); unfold value, globals, output;
    cbn [fst snd]; repeat split; try discriminate; try reflexivity.
  all: intros U F; subst line name;
    destruct (username c) as [|a r] eqn:Un; [congruence|];
    apply (snprintf_short 4096); exact F.
Qed.

Lemma accepted_chat_broadcast_witness :
  lookup 1 (clients_head ann_writes) = Some (mk_client 1 "Ann" "WRITER")
  /\ output (ws_callback 1 LWS_CALLBACK_RECEIVE "hi" sqlite_insert_fails
               ann_writes)
     = [ fprintf_stderr ("Failed to insert message: disk I/O error" ++ LF);
         fprintf_stderr INSERT_WARNING;
         lws_write 2 "Ann: hi";
         lws_write 1 "Ann: hi" ].
Proof.
  split; [reflexivity|].
  refine (proj2 (proj1 (proj2 (proj2 (proj2
            (accepted_chat_broadcast 1 "hi" sqlite_insert_fails ann_writes
               (mk_client 1 "Ann" "WRITER") eq_refl _ _ _ eq_refl)))) eq_refl));
    vm_compute; discriminate.
Defined.

(** ** Chat, then history *)

Lemma most_recent_snoc {A : Type} (n : nat) (l : list A) (x : A) :
  most_recent (S n) (l ++ [x]) = (most_recent n l ++ [x])%list.
Proof.
  unfold most_recent. rewrite length_app. simpl List.length.
  replace (List.length l + 1 - S n)%nat with (List.length l - n)%nat by lia.
  rewrite skipn_app.
  replace (List.length l - n - List.length l)%nat with 0%nat by lia.
  reflexivity.
Qed.

Lemma concat_snoc (rows : list (string * string)) (x : string * string) :
  String.concat LF (map record_line (rows ++ [x]))
  = earlier_lines rows ++ record_line x.
Proof.
  induction rows as [|y rows IH]; [reflexivity|].
  destruct rows as [|z rows].
  - cbn. now rewrite !append_assoc.
  - change (String.concat LF (map record_line ((y :: z :: rows) ++ [x])))
      with (record_line y ++ LF
            ++ String.concat LF (map record_line ((z :: rows) ++ [x]))).
    rewrite IH. unfold earlier_lines.
    change (String.concat LF (map record_line (y :: z :: rows)))
      with (record_line y ++ LF
            ++ String.concat LF (map record_line (z :: rows))).
    now rewrite !append_assoc.
Qed.

(** C8, counterexample.  The message [hi] of the Writer is accepted and broadcast
    while the insert step fails; the table stays empty and the reply to the
    next [get_history] is the empty text. *)
Lemma chat_round_trip_counterexample :
  output (ws_callback 1 LWS_CALLBACK_RECEIVE "hi" sqlite_insert_fails
            nameless_writer)
  = [ fprintf_stderr ("Failed to insert message: disk I/O error" ++ LF);
      fprintf_stderr INSERT_WARNING;
      lws_write 1 "Anon: hi" ]
  /\ output (ws_callback 1 LWS_CALLBACK_RECEIVE "get_history" sqlite_ok
               (globals (ws_callback 1 LWS_CALLBACK_RECEIVE "hi"
                           sqlite_insert_fails nameless_writer)))
     = [lws_write 1 ""]
  /\ ~ last_line_is
         (output (ws_callback 1 LWS_CALLBACK_RECEIVE "get_history" sqlite_ok
                    (globals (ws_callback 1 LWS_CALLBACK_RECEIVE "hi"
                                sqlite_insert_fails nameless_writer))))
         1 (record_line ("", "hi")).
Proof.
  split; [reflexivity|]. split; [reflexivity|].
  intros [earlier H]. vm_compute in H.
  destruct earlier; discriminate H.
Qed.

(** C8, amended.  When the insert of an accepted chat message succeeds, and a
    registered session then sends [get_history] while the select is available
    and runs to completion, the reply is one message to that session: the
    lines of the up to 499 records before, each followed by a newline, and
    last the line [<username>: <message>] with the sender's stored display
    name.  The reply is not empty. *)
Theorem chat_round_trip :
  forall (w : lws) (bytes : string) (rc : sqlite_rc) (s : server) (c : client)
         (w' : lws) (bytes' : string) (rc' : sqlite_rc) (c' : client),
    lookup w (clients_head s) = Some c ->
    strncmp (c_str bytes) "username:" 9 <> 0 ->
    strncmp (c_str bytes) "role:" 5 <> 0 ->
    strncmp (c_str bytes) "get_history" 11 <> 0 ->
    strcasecmp (role c) "WRITER" = 0 ->
    insert_succeeds rc s = true ->
    let s1 := globals (ws_callback w LWS_CALLBACK_RECEIVE bytes rc s) in
    lookup w' (clients_head s1) = Some c' ->
    strncmp (c_str bytes') "get_history" 11 = 0 ->
    select_available rc' s1 = true ->
    select_error rc' = None ->
    let reply := earlier_lines (most_recent 499 (messages (store s)))
                 ++ username c ++ ": " ++ c_str bytes in
    messages (store s1)
    = (messages (store s) ++ [(username c, c_str bytes)])%list
    /\ ws_callback w' LWS_CALLBACK_RECEIVE bytes' rc' s1
       = (0, s1, [lws_write w' reply])
    /\ reply <> "".
Proof.
  intros w bytes rc s c w' bytes' rc' c' H E1 E2 E3 R I s1 H' E' A Se reply.
  assert (S1 : s1 = inserted (username c) (c_str bytes) s).
  { subst s1. cbn [ws_callback].
    rewrite (on_receive_chat _ _ _ _ _ H E1 E2 E3).
    apply Z.eqb_eq in R. rewrite R, I. reflexivity. }
  split; [now rewrite S1|].
  split.
  - cbn [ws_callback]. rewrite (on_receive_get_history _ _ _ _ _ H' E').
    unfold snapshot_of. rewrite snapshot_value, A.
    unfold sqlite3_rows. rewrite Se.
    rewrite sqlite3_select_recent by (unfold HISTORY_LIMIT; lia).
    rewrite rev_involutive.
    replace (messages (store s1))
      with (messages (store s) ++ [(username c, c_str bytes)])%list
      by now rewrite S1.
    change (Z.to_nat HISTORY_LIMIT) with 500%nat.
    rewrite (most_recent_snoc 499), concat_snoc. reflexivity.
  - subst reply. intros G. apply (f_equal String.length) in G.
    rewrite !length_append in G. simpl in G. lia.
Qed.

Lemma chat_round_trip_witness :
  insert_succeeds sqlite_ok ann_writes = true
  /\ ws_callback 2 LWS_CALLBACK_RECEIVE "get_history" sqlite_ok
       (globals (ws_callback 1 LWS_CALLBACK_RECEIVE "hi" sqlite_ok ann_writes))
     = (0,
        globals (ws_callback 1 LWS_CALLBACK_RECEIVE "hi" sqlite_ok ann_writes),
        [lws_write 2 ("Ann: first" ++ LF ++ "Ann: hi")]).
Proof.
  split; [reflexivity|].
  refine (proj1 (proj2
            (chat_round_trip 1 "hi" sqlite_ok ann_writes
               (mk_client 1 "Ann" "WRITER") 2 "get_history" sqlite_ok
               (mk_client 2 "Anonymous" "NONE")
               eq_refl _ _ _ eq_refl eq_refl eq_refl eq_refl eq_refl eq_refl)));
    vm_compute; discriminate.
Defined.

(** ** Closing a session *)

Lemma unlink_split (w : lws) (l : list client) (c : client) :
  lookup w l = Some c ->
  exists before behind : list client,
    l = (before ++ c :: behind)%list /\ lookup w before = None
    /\ unlink w l = (before ++ behind)%list.
Proof.
  induction l as [|p next IH]; simpl; [discriminate|].
  destruct (Pos.eqb (wsi p) w) eqn:E.
  - intros H. inversion H; subst. exists [], next. repeat split.
  - intros H. destruct (IH H) as [before [behind [L [N U]]]].
    exists (p :: before), behind. simpl. rewrite E. repeat split; congruence.
Qed.

Lemma unlink_unknown (w : lws) (l : list client) :
  lookup w l = None -> unlink w l = l.
Proof.
  induction l as [|p next IH]; simpl; [reflexivity|].
  destruct (Pos.eqb (wsi p) w); [discriminate|].
  intros H. now rewrite IH.
Qed.

(** C9, counterexample.  The Writer Ann (handle 1) closes while a second
    session (handle 2) is connected: the node is unlinked first, and the
    notice goes to the second session only. *)
Lemma disconnect_sequence_counterexample :
  lookup 1 (clients_head ann_writes) = Some (mk_client 1 "Ann" "WRITER")
  /\ output (ws_callback 1 LWS_CALLBACK_CLOSED "" sqlite_ok ann_writes)
     = [ lws_write 2 "System: Ann disconnected.";
         lws_write 2 "SYSTEM_COUNTS:0:0" ]
  /\ ~ departure_before_removal 1 ann_writes (mk_client 1 "Ann" "WRITER").
Proof.
  split; [reflexivity|]. split; [reflexivity|].
  unfold departure_before_removal. vm_compute. discriminate.
Qed.

(** C9, amended.  When a session closes, its node, the first with the handle,
    is unlinked.  If its role compares equal to WRITER, the departure notice,
    built from the display name the node had before the removal, is then sent
    to every session that remains, and after it the counts of the registry
    without the node.  If not, or if the handle is not registered (then the
    registry is unchanged), the counts are the whole output. *)
Theorem disconnect_sequence :
  forall (w : lws) (bytes : string) (rc : sqlite_rc) (s : server),
    let s' := unlinked w s in
    let result := ws_callback w LWS_CALLBACK_CLOSED bytes rc s in
    let counts := map (fun p => lws_write (wsi p) (snprintf 128 (counts_text s')))
                      (clients_head s') in
    value result = 0
    /\ globals result = s'
    /\ store s' = store s
    /\ (forall c : client,
           lookup w (clients_head s) = Some c ->
           (exists before behind : list client,
               clients_head s = (before ++ c :: behind)%list
               /\ lookup w before = None
               /\ clients_head s' = (before ++ behind)%list)
           /\ (strcasecmp (role c) "WRITER" = 0 ->
               output result
               = (map (fun p =>
                         lws_write (wsi p)
                           (snprintf 200
                              ("System: " ++ username c ++ " disconnected.")))
                      (clients_head s')
                  ++ counts)%list)
           /\ (strcasecmp (role c) "WRITER" <> 0 -> output result = counts))
    /\ (lookup w (clients_head s) = None ->
        s' = s /\ output result = counts).
Proof.
  intros w bytes rc s s' result counts.
  subst result.
  change (ws_callback w LWS_CALLBACK_CLOSED bytes rc s) with (on_closed w s).
  rewrite on_closed_eq. fold s'. unfold value, globals, output.
  cbn [fst snd].
  split; [reflexivity|]. split; [reflexivity|]. split; [reflexivity|].
  split.
  - intros c H. rewrite H. split; [exact (unlink_split _ _ _ H)|].
    split; intros R.
    + apply Z.eqb_eq in R. rewrite R. reflexivity.
    + apply Z.eqb_neq in R. rewrite R. reflexivity.
  - intros H. rewrite H. split; [|reflexivity].
    subst s'. unfold unlinked, set_clients. rewrite (unlink_unknown _ _ H).
    destruct s. reflexivity.
Qed.

(** ** Display names *)

Lemma skip_blanks_split (s : string) :
  exists blanks : string, s = blanks ++ skip_blanks s /\ all_blank blanks = true.
Proof.
  induction s as [|a r [blanks [E B]]]; [exists ""; split; reflexivity|].
  unfold skip_blanks; fold skip_blanks.
  destruct (Ascii.eqb a " " || Ascii.eqb a TAB) eqn:A.
  - exists (String a blanks). cbn [all_blank append]. unfold is_blank.
    rewrite A, B, <- E. split; reflexivity.
  - exists "". split; reflexivity.
Qed.

Lemma skip_blanks_head (s : string) :
  match skip_blanks s with
  | String a _ => is_blank a = false
  | EmptyString => True
  end.
Proof.
  induction s as [|a r IH]; [exact I|].
  unfold skip_blanks; fold skip_blanks.
  destruct (Ascii.eqb a " " || Ascii.eqb a TAB) eqn:A; [exact IH|exact A].
Qed.

Lemma skip_blanks_all_blank (s : string) :
  all_blank s = true -> skip_blanks s = "".
Proof.
  induction s as [|a r IH]; [reflexivity|].
  cbn [all_blank]. unfold is_blank. intros H.
  apply andb_true_iff in H. destruct H as [A B].
  unfold skip_blanks; fold skip_blanks. rewrite A. exact (IH B).
Qed.

Lemma take_length (n : nat) (s : string) : (String.length (take n s) <= n)%nat.
Proof.
  revert s. induction n as [|k IH]; intros [|a r]; simpl; try lia.
  specialize (IH r). lia.
Qed.

Lemma take_prefix (n : nat) (s : string) :
  exists cut : string, s = take n s ++ cut.
Proof.
  revert s. induction n as [|k IH]; intros s.
  - exists s. destruct s; reflexivity.
  - destruct s as [|a r]; [exists ""; reflexivity|].
    destruct (IH r) as [cut E]. exists cut. simpl. now rewrite <- E.
Qed.

Lemma take_all (n : nat) (s : string) :
  (String.length s <= n)%nat -> take n s = s.
Proof.
  revert s. induction n as [|k IH]; intros [|a r] H; simpl in *;
    try reflexivity; try lia.
  f_equal. apply IH. lia.
Qed.

Lemma strncmp_prefix (p s : string) :
  nul_free p -> strncmp s p (String.length p) = 0 ->
  s = p ++ advance (String.length p) s.
Proof.
  revert s. induction p as [|b p IH]; intros s N H.
  - destruct s; reflexivity.
  - destruct N as [Nb N]. cbn [String.length] in *.
    destruct s as [|a s]; unfold strncmp in H; fold strncmp in H.
    + exfalso. apply Nb, code_NUL. lia.
    + destruct (code a =? code b) eqn:E.
      * apply Z.eqb_eq, code_inj in E. subst a.
        unfold advance; fold advance. cbn [append]. f_equal. now apply IH.
      * apply Z.eqb_neq in E. lia.
Qed.

(** C10. Display names.  For a [username:<value>] frame from a registered
    session, whatever its role, the frame is the prefix followed by the value,
    nothing is sent, and the display name stored in the session's node is the
    value without its leading spaces and tabs, cut to 63 bytes: the value is
    a run of spaces and tabs followed by the stripped text, which does not
    start with a space or a tab; the stored name is a prefix of the stripped
    text of at most 63 bytes, all of it when it fits.  A value of spaces and
    tabs only stores the empty name. *)
Theorem username_normalization :
  forall (w : lws) (bytes : string) (rc : sqlite_rc) (s : server) (c : client),
    lookup w (clients_head s) = Some c ->
    strncmp (c_str bytes) "username:" 9 = 0 ->
    let v := advance 9 (c_str bytes) in
    let name := take 63 (skip_blanks v) in
    let s' := stored c (set_username name) s in
    c_str bytes = "username:" ++ v
    /\ ws_callback w LWS_CALLBACK_RECEIVE bytes rc s = (0, s', [])
    /\ lookup w (clients_head s') = Some (mk_client w name (role c))
    /\ store s' = store s
    /\ (exists blanks : string,
           v = blanks ++ skip_blanks v /\ all_blank blanks = true)
    /\ match skip_blanks v with
       | String a _ => is_blank a = false
       | EmptyString => True
       end
    /\ (String.length name <= 63)%nat
    /\ (exists cut : string, skip_blanks v = name ++ cut)
    /\ ((String.length (skip_blanks v) <= 63)%nat -> name = skip_blanks v)
    /\ (all_blank v = true -> name = "").
Proof.
  intros w bytes rc s c H E v name s'.
  pose proof (lookup_wsi _ _ _ H) as Hw.
  split.
  { apply (strncmp_prefix "username:"); [|exact E].
    cbn. repeat split; discriminate. }
  split.
  { change (ws_callback w LWS_CALLBACK_RECEIVE bytes rc s)
      with (on_receive w bytes rc s).
    now rewrite (on_receive_username _ _ _ _ _ H E). }
  split.
  { subst s'. unfold stored, set_clients. cbn [clients_head]. rewrite Hw.
    rewrite (lookup_rewrite_node w (set_username name) _ c
               (fun p => eq_refl) H).
    unfold set_username. now rewrite Hw. }
  split; [reflexivity|].
  split; [apply skip_blanks_split|].
  split; [apply skip_blanks_head|].
  split; [apply take_length|].
  split; [apply take_prefix|].
  split; [apply take_all|].
  intros B. subst name. now rewrite (skip_blanks_all_blank _ B).
Qed.

Lemma username_normalization_witness :
  lookup 1 (clients_head lone_session) = Some (mk_client 1 "Anonymous" "NONE")
  /\ strncmp (c_str blank_name) "username:" 9 = 0
  /\ ws_callback 1 LWS_CALLBACK_RECEIVE blank_name sqlite_ok lone_session
     = (0, mk_server [mk_client 1 "" "NONE"] (mk_sqlite true true true []), []).
Proof.
  split; [reflexivity|]. split; [reflexivity|].
  exact (proj1 (proj2
           (username_normalization 1 blank_name sqlite_ok lone_session
              (mk_client 1 "Anonymous" "NONE") eq_refl eq_refl))).
Defined.

(** ** The registry as a map from handles to nodes *)

Lemma lookup_unlink_other (w w' : lws) (l : list client) :
  w' <> w -> lookup w' (unlink w l) = lookup w' l.
Proof.
  intros N. induction l as [|p next IH]; simpl; [reflexivity|].
  destruct (Pos.eqb (wsi p) w) eqn:E.
  - apply Pos.eqb_eq in E. destruct (Pos.eqb (wsi p) w') eqn:E'; [|reflexivity].
    apply Pos.eqb_eq in E'. congruence.
  - simpl. now rewrite IH.
Qed.

Lemma lookup_rewrite_other (w w' : lws) (f : client -> client)
    (l : list client) :
  (forall p, wsi (f p) = wsi p) -> w' <> w ->
  lookup w' (rewrite_node w f l) = lookup w' l.
Proof.
  intros Hf N. induction l as [|p next IH]; simpl; [reflexivity|].
  destruct (Pos.eqb (wsi p) w) eqn:E; simpl.
  - rewrite Hf. apply Pos.eqb_eq in E.
    destruct (Pos.eqb (wsi p) w') eqn:E'; [|reflexivity].
    apply Pos.eqb_eq in E'. congruence.
  - now rewrite IH.
Qed.

Lemma map_wsi_rewrite (w : lws) (f : client -> client) (l : list client) :
  (forall p, wsi (f p) = wsi p) -> map wsi (rewrite_node w f l) = map wsi l.
Proof.
  intros Hf. induction l as [|p next IH]; simpl; [reflexivity|].
  destruct (Pos.eqb (wsi p) w); simpl; [now rewrite Hf|now rewrite IH].
Qed.

Lemma lookup_registered (w : lws) (l : list client) :
  lookup w l <> None <-> In w (map wsi l).
Proof.
  induction l as [|p next IH]; simpl; [tauto|].
  destruct (Pos.eqb (wsi p) w) eqn:E.
  - apply Pos.eqb_eq in E. split; [now left|discriminate].
  - apply Pos.eqb_neq in E. rewrite IH. tauto.
Qed.

Lemma lookup_unlink_once (w : lws) (l : list client) :
  NoDup (map wsi l) -> lookup w (unlink w l) = None.
Proof.
  induction l as [|p next IH]; simpl; [reflexivity|].
  intros N. inversion N as [|x xs Hx Hxs]; subst.
  destruct (Pos.eqb (wsi p) w) eqn:E.
  - apply Pos.eqb_eq in E. subst w.
    destruct (lookup (wsi p) next) eqn:L; [|reflexivity].
    exfalso. apply Hx, lookup_registered. now rewrite L.
  - simpl. rewrite E. now apply IH.
Qed.

Lemma length_unlink (w : lws) (l : list client) (c : client) :
  lookup w l = Some c -> S (List.length (unlink w l)) = List.length l.
Proof.
  induction l as [|p next IH]; simpl; [discriminate|].
  destruct (Pos.eqb (wsi p) w); [reflexivity|].
  intros H. simpl. now rewrite (IH H).
Qed.

Lemma rewrite_node_unknown (w : lws) (f : client -> client) (l : list client) :
  lookup w l = None -> rewrite_node w f l = l.
Proof.
  induction l as [|p next IH]; simpl; [reflexivity|].
  destruct (Pos.eqb (wsi p) w); [discriminate|].
  intros H. now rewrite IH.
Qed.

(** X1. Connecting.  [LWS_CALLBACK_ESTABLISHED] sends nothing and leaves the
    store alone; afterwards [find_client] finds, for the new handle, a node
    named Anonymous without a role, and for every other handle what it found
    before; the registry has one node more and the role counts are the
    same. *)
Theorem connect_registers :
  forall (w : lws) (bytes : string) (rc : sqlite_rc) (s : server),
    let result := ws_callback w LWS_CALLBACK_ESTABLISHED bytes rc s in
    let s' := globals result in
    value result = 0 /\ output result = [] /\ store s' = store s
    /\ value (find_client w s') = Some (mk_client w "Anonymous" "NONE")
    /\ (forall w' : lws, w' <> w ->
           value (find_client w' s') = value (find_client w' s))
    /\ List.length (clients_head s') = S (List.length (clients_head s))
    /\ value (count_roles s') = value (count_roles s).
Proof.
  intros w bytes rc s result s'. subst s' result.
  rewrite on_established_eq. unfold value, globals, output, find_client, gets.
  cbn [fst snd set_clients clients_head store lookup wsi].
  rewrite Pos.eqb_refl.
  repeat split.
  intros w' N. apply Pos.eqb_neq in N. rewrite Pos.eqb_sym in N.
  now rewrite N.
Qed.

(** X2. Closing.  After [LWS_CALLBACK_CLOSED] for a handle, [find_client]
    finds for every other handle what it found before, and the store is the
    same.  A handle that was not registered leaves the registry as it was; a
    registered one leaves it one node shorter, and, when no two nodes share a
    handle, is not found any more. *)
Theorem close_unregisters :
  forall (w : lws) (bytes : string) (rc : sqlite_rc) (s : server),
    let s' := globals (ws_callback w LWS_CALLBACK_CLOSED bytes rc s) in
    store s' = store s
    /\ (forall w' : lws, w' <> w ->
           value (find_client w' s') = value (find_client w' s))
    /\ (value (find_client w s) = None -> clients_head s' = clients_head s)
    /\ (value (find_client w s) <> None ->
        S (List.length (clients_head s')) = List.length (clients_head s))
    /\ (NoDup (map wsi (clients_head s)) ->
        value (find_client w s') = None
        /\ NoDup (map wsi (clients_head s'))).
Proof.
  intros w bytes rc s s'. subst s'.
  change (ws_callback w LWS_CALLBACK_CLOSED bytes rc s) with (on_closed w s).
  rewrite on_closed_eq. unfold value, globals, find_client, gets, unlinked.
  cbn [fst snd set_clients clients_head store].
  split; [reflexivity|].
  split; [intros w' N; now apply lookup_unlink_other|].
  split; [apply unlink_unknown|].
  split.
  - destruct (lookup w (clients_head s)) as [c|] eqn:H; [|congruence].
    intros _. exact (length_unlink _ _ _ H).
  - intros N. split; [now apply lookup_unlink_once|].
    destruct (lookup w (clients_head s)) as [c|] eqn:H.
    + destruct (unlink_split _ _ _ H) as [before [behind [L [_ U]]]].
      rewrite U. rewrite L in N. rewrite map_app in *. cbn [map] in N.
      now apply NoDup_remove_1 in N.
    + now rewrite (unlink_unknown _ _ H).
Qed.

(** ** What one frame can change *)

Lemma rewrite_node_same (w : lws) (l : list client) :
  rewrite_node w (fun p => p) l = l.
Proof.
  induction l as [|p next IH]; simpl; [reflexivity|].
  destruct (Pos.eqb (wsi p) w); [reflexivity|now rewrite IH].
Qed.

(** The globals after a frame: untouched, or one field of the sender's node
    stored, or one row inserted. *)
Lemma on_receive_effect (w : lws) (bytes : string) (rc : sqlite_rc)
    (s : server) :
  let s' := globals (on_receive w bytes rc s) in
  s' = s
  \/ (exists c : client,
         lookup w (clients_head s) = Some c
         /\ strncmp (c_str bytes) "username:" 9 = 0
         /\ s' = stored c (set_username
                             (take 63 (skip_blanks (advance 9 (c_str bytes)))))
                        s)
  \/ (exists c : client,
         lookup w (clients_head s) = Some c
         /\ strncmp (c_str bytes) "role:" 5 = 0
         /\ CanAdmit (RequestedRole (advance 5 (c_str bytes)))
                     (readers s) (writers s) = true
         /\ s' = stored c (set_role
                             (role_name
                                (RequestedRole (advance 5 (c_str bytes)))))
                        s)
  \/ (exists c : client,
         lookup w (clients_head s) = Some c
         /\ is_chat (c_str bytes)
         /\ strcasecmp (role c) "WRITER" = 0
         /\ insert_succeeds rc s = true
         /\ s' = inserted (username c) (c_str bytes) s).
Proof.
  intros s'. subst s'. unfold globals.
  destruct (lookup w (clients_head s)) as [c|] eqn:H.
  2: { rewrite on_receive_unknown by exact H. now left. }
  destruct (Z.eq_dec (strncmp (c_str bytes) "username:" 9) 0) as [E1|E1].
  { rewrite (on_receive_username _ _ _ _ _ H E1). right. left.
    exists c. repeat split; assumption. }
  destruct (Z.eq_dec (strncmp (c_str bytes) "role:" 5) 0) as [E2|E2].
  { rewrite (on_receive_role_spec _ _ _ _ _ H E2). cbv zeta.
    destruct (CanAdmit _ (readers s) (writers s)) eqn:G; [|now left].
    right. right. left. exists c. repeat split; assumption. }
  destruct (Z.eq_dec (strncmp (c_str bytes) "get_history" 11) 0) as [E3|E3].
  { rewrite (on_receive_get_history _ _ _ _ _ H E3). now left. }
  rewrite (on_receive_chat _ _ _ _ _ H E1 E2 E3).
  destruct (strcasecmp (role c) "WRITER" =? 0) eqn:R; [|now left].
  destruct (insert_succeeds rc s) eqn:I; [|now left].
  right. right. right. exists c. apply Z.eqb_eq in R.
  unfold is_chat. repeat split; assumption.
Qed.

Lemma on_receive_clients (w : lws) (bytes : string) (rc : sqlite_rc)
    (s : server) :
  exists f : client -> client,
    (forall p, wsi (f p) = wsi p)
    /\ clients_head (globals (on_receive w bytes rc s))
       = rewrite_node w f (clients_head s).
Proof.
  destruct (on_receive_effect w bytes rc s)
    as [E|[[c [H [_ E]]]|[[c [H [_ [_ E]]]]|[c [H [_ [_ [_ E]]]]]]]];
    rewrite E.
  - exists (fun p => p). split; [reflexivity|]. now rewrite rewrite_node_same.
  - eexists. split; [|unfold stored, set_clients; cbn [clients_head];
                       rewrite (lookup_wsi _ _ _ H); reflexivity].
    reflexivity.
  - eexists. split; [|unfold stored, set_clients; cbn [clients_head];
                       rewrite (lookup_wsi _ _ _ H); reflexivity].
    reflexivity.
  - exists (fun p => p). split; [reflexivity|].
    cbn [inserted set_store clients_head]. now rewrite rewrite_node_same.
Qed.

(** X3. A frame touches the sender alone.  Whatever a session sends, the
    registry keeps the same handles in the same order, and [find_client]
    finds for every other handle the node it found before: no frame renames,
    admits or demotes another session. *)
Theorem frame_touches_only_sender :
  forall (w : lws) (bytes : string) (rc : sqlite_rc) (s : server),
    let s' := globals (ws_callback w LWS_CALLBACK_RECEIVE bytes rc s) in
    value (collect_wsis s') = value (collect_wsis s)
    /\ (forall w' : lws, w' <> w ->
           value (find_client w' s') = value (find_client w' s)).
Proof.
  intros w bytes rc s s'. subst s'.
  change (ws_callback w LWS_CALLBACK_RECEIVE bytes rc s)
    with (on_receive w bytes rc s).
  destruct (on_receive_clients w bytes rc s) as [f [Hf E]].
  unfold value, collect_wsis, find_client, gets. cbn [fst]. rewrite E.
  split; [now apply map_wsi_rewrite|].
  intros w' N. now apply lookup_rewrite_other.
Qed.

Lemma deliver_store (s : server) (e : callback) :
  store (deliver s e) = store s
  \/ (cb_reason e = LWS_CALLBACK_RECEIVE
      /\ exists c : client,
           lookup (cb_wsi e) (clients_head s) = Some c
           /\ is_chat (c_str (cb_in e))
           /\ strcasecmp (role c) "WRITER" = 0
           /\ insert_succeeds (cb_rc e) s = true
           /\ store (deliver s e)
              = sqlite3_insert (username c) (c_str (cb_in e)) (store s)).
Proof.
  destruct e as [w reason bytes rc]. unfold deliver.
  cbn [cb_wsi cb_reason cb_in cb_rc]. destruct reason.
  - left. reflexivity.
  - change (ws_callback w LWS_CALLBACK_RECEIVE bytes rc s)
      with (on_receive w bytes rc s).
    destruct (on_receive_effect w bytes rc s)
      as [E|[[c [H [_ E]]]|[[c [H [_ [_ E]]]]|[c [H [C [R [I E]]]]]]]];
      rewrite E; try (left; reflexivity).
    right. split; [reflexivity|]. exists c.
    split; [exact H|]. split; [exact C|]. split; [exact R|].
    split; [exact I|reflexivity].
  - left. change (ws_callback w LWS_CALLBACK_CLOSED bytes rc s)
      with (on_closed w s). now rewrite on_closed_eq.
  - left. reflexivity.
Qed.

(** X4. Only accepted chat writes the table.  A callback leaves the store as
    it is unless it is a frame from a registered session whose role compares
    equal to WRITER, the frame matches no command prefix and the insert goes
    through; then exactly one row is added at the end: the display name of the
    sender and the frame.  Connecting, closing, [username:], [role:] and
    [get_history] frames never write. *)
Theorem only_accepted_chat_writes :
  forall (s : server) (e : callback),
    store (deliver s e) = store s
    \/ (cb_reason e = LWS_CALLBACK_RECEIVE
        /\ exists c : client,
             value (find_client (cb_wsi e) s) = Some c
             /\ is_chat (c_str (cb_in e))
             /\ strcasecmp (role c) "WRITER" = 0
             /\ insert_succeeds (cb_rc e) s = true
             /\ messages (store (deliver s e))
                = (messages (store s)
                   ++ [(username c, c_str (cb_in e))])%list
             /\ db (store (deliver s e)) = db (store s)
             /\ insert_stmt (store (deliver s e)) = insert_stmt (store s)
             /\ select_stmt (store (deliver s e)) = select_stmt (store s)).
Proof.
  intros s e. destruct (deliver_store s e) as [E|[R [c [H [C [W [I E]]]]]]].
  - now left.
  - right. split; [exact R|]. exists c. rewrite E.
    split; [exact H|]. split; [exact C|]. split; [exact W|].
    split; [exact I|]. repeat split.
Qed.

(** X5. The history is append-only.  Over any run of callbacks, from any
    state, the table at the end is the table at the start followed by the
    rows added meanwhile, and the three handles are the same: no callback
    deletes or rewrites a row or closes the store. *)
Theorem history_append_only :
  forall (events : list callback) (s : server),
    (exists added : list (string * string),
        messages (store (run events s))
        = (messages (store s) ++ added)%list)
    /\ db (store (run events s)) = db (store s)
    /\ insert_stmt (store (run events s)) = insert_stmt (store s)
    /\ select_stmt (store (run events s)) = select_stmt (store s).
Proof.
  intros events. induction events as [|e rest IH]; intros s.
  - split; [exists []; now rewrite app_nil_r|repeat split].
  - destruct (IH (deliver s e)) as [[added A] [D [I S]]].
    cbn [run fold_left]. fold (run rest (deliver s e)).
    rewrite A, D, I, S.
    destruct (deliver_store s e) as [E|[_ [c [_ [_ [_ [_ E]]]]]]]; rewrite E.
    + split; [now exists added|repeat split].
    + split; [|repeat split]. cbn [sqlite3_insert messages].
      exists ((username c, c_str (cb_in e)) :: added).
      now rewrite <- app_assoc.
Qed.

(** ** Display names and notices *)

Lemma take_63_fits (t : string) : (String.length (take 63 t) <= 63)%nat.
Proof. apply take_length. Qed.

Lemma Forall_cons_anonymous (w : lws) (l : list client) :
  Forall name_fits l -> Forall name_fits (mk_client w "Anonymous" "NONE" :: l).
Proof. intros H. constructor; [|exact H]. unfold name_fits. cbn. lia. Qed.

Lemma name_fits_deliver (s : server) (e : callback) :
  Forall name_fits (clients_head s) ->
  Forall name_fits (clients_head (deliver s e)).
Proof.
  intros F. destruct e as [w reason bytes rc]. unfold deliver.
  cbn [cb_wsi cb_reason cb_in cb_rc]. destruct reason.
  - rewrite on_established_eq. now apply Forall_cons_anonymous.
  - change (ws_callback w LWS_CALLBACK_RECEIVE bytes rc s)
      with (on_receive w bytes rc s).
    destruct (on_receive_effect w bytes rc s)
      as [E|[[c [H [_ E]]]|[[c [H [_ [_ E]]]]|[c [H [C [R [I E]]]]]]]];
      rewrite E; try exact F.
    + apply Forall_rewrite_node; [|exact F]. intros p _. apply take_63_fits.
    + apply Forall_rewrite_node; [|exact F]. intros p Hp. exact Hp.
  - change (ws_callback w LWS_CALLBACK_CLOSED bytes rc s)
      with (on_closed w s). rewrite on_closed_eq.
    now apply Forall_unlink.
  - exact F.
Qed.

Lemma name_fits_run (events : list callback) (s : server) :
  Forall name_fits (clients_head s) ->
  Forall name_fits (clients_head (run events s)).
Proof.
  revert s. induction events as [|e rest IH]; intros s F; [exact F|].
  apply IH. now apply name_fits_deliver.
Qed.

Lemma notice_whole (before behind name : string) :
  (String.length name <= 63)%nat ->
  (String.length before + String.length behind <= 100)%nat ->
  snprintf 200 (before ++ name ++ behind) = before ++ name ++ behind.
Proof.
  intros N B. apply snprintf_short. rewrite !length_append. lia.
Qed.

(** X6. Display names fit, and notices are whole.  In the state after any run
    from the start of the service loop, every node has a display name of at
    most 63 bytes and one of the roles NONE, READER, WRITER; so the join and
    departure notices built in the 200-byte buffer are never cut: they are
    the text before the name, the name, and the text behind it. *)
Theorem names_fit_and_notices_are_whole :
  forall (d : sqlite) (events : list callback),
    Forall
      (fun c : client =>
         (String.length (username c) <= 63)%nat
         /\ (role c = "NONE" \/ role c = "READER" \/ role c = "WRITER")
         /\ snprintf 200 ("System: " ++ username c ++ " joined as Writer")
            = "System: " ++ username c ++ " joined as Writer"
         /\ snprintf 200 ("System: " ++ username c ++ " joined as Reader")
            = "System: " ++ username c ++ " joined as Reader"
         /\ snprintf 200 ("System: " ++ username c ++ " disconnected.")
            = "System: " ++ username c ++ " disconnected.")
      (clients_head (run events (startup d))).
Proof.
  intros d events.
  pose proof (name_fits_run events (startup d) (Forall_nil _)) as F.
  destruct (exclusive_run events (startup d) (exclusive_startup d)) as [C _].
  rewrite Forall_forall in *. intros c Hc.
  specialize (F c Hc). specialize (C c Hc). unfold name_fits in F.
  split; [exact F|]. split; [exact C|].
  repeat split; apply notice_whole; try exact F; cbn; lia.
Qed.

(** ** Holding and releasing a role *)

Lemma tally_lookup (P : client -> bool) (w : lws) (l : list client)
    (c : client) :
  lookup w l = Some c -> P c = true -> 1 <= tally P l.
Proof.
  induction l as [|p next IH]; simpl; [discriminate|].
  destruct (Pos.eqb (wsi p) w).
  - intros H Pc. inversion H; subst. rewrite tally_cons, Pc.
    pose proof (tally_nonneg P next). cbn [Z.b2z]. lia.
  - intros H Pc. rewrite tally_cons. specialize (IH H Pc).
    destruct (P p); cbn [Z.b2z]; lia.
Qed.

Lemma tally_unlink_found (P : client -> bool) (w : lws) (l : list client)
    (c : client) :
  lookup w l = Some c -> tally P (unlink w l) = tally P l - Z.b2z (P c).
Proof.
  induction l as [|p next IH]; simpl; [discriminate|].
  destruct (Pos.eqb (wsi p) w).
  - intros H. inversion H; subst. rewrite tally_cons. lia.
  - intros H. rewrite !tally_cons, (IH H). lia.
Qed.

(** X7. Roles are sticky.  A [role:] request from a session whose own role
    already compares equal to WRITER is denied, whichever role it asks for;
    so is a request for the Writer role from a session whose role compares
    equal to READER.  The session counts itself: a role is given up only by
    closing the connection. *)
Theorem roles_are_sticky :
  forall (w : lws) (bytes : string) (rc : sqlite_rc) (s : server) (c : client),
    value (find_client w s) = Some c ->
    strncmp (c_str bytes) "role:" 5 = 0 ->
    let req := RequestedRole (advance 5 (c_str bytes)) in
    strcasecmp (role c) "WRITER" = 0
    \/ (strcasecmp (role c) "READER" = 0 /\ req = Writer) ->
    ws_callback w LWS_CALLBACK_RECEIVE bytes rc s
    = (0, s,
       lws_write w (denial req)
       :: map (fun p => lws_write (wsi p) (snprintf 128 (counts_text s)))
              (clients_head s)).
Proof.
  intros w bytes rc s c H E req R.
  change (value (find_client w s)) with (lookup w (clients_head s)) in H.
  change (ws_callback w LWS_CALLBACK_RECEIVE bytes rc s)
    with (on_receive w bytes rc s).
  rewrite (on_receive_role_spec _ _ _ _ _ H E). cbv zeta. fold req.
  assert (G : CanAdmit req (readers s) (writers s) = false);
    [|now rewrite G].
  rewrite readers_tally, writers_tally.
  destruct (is_writer c) eqn:W.
  - pose proof (tally_lookup is_writer _ _ _ H W) as T.
    destruct req; unfold CanAdmit, CanAdmitReader, CanAdmitWriter.
    + apply Z.eqb_neq. lia.
    + apply andb_false_iff. left. apply Z.eqb_neq. lia.
  - destruct R as [R|[R Q]].
    + apply Z.eqb_eq in R. unfold is_writer in W. congruence.
    + assert (Rd : is_reader c = true).
      { unfold is_reader. rewrite W. apply Z.eqb_eq in R. now rewrite R. }
      pose proof (tally_lookup is_reader _ _ _ H Rd) as T.
      rewrite Q. unfold CanAdmit, CanAdmitWriter.
      apply andb_false_iff. right. apply Z.eqb_neq. lia.
Qed.

Lemma roles_are_sticky_witness :
  value (find_client 2 reader_inside) = Some (mk_client 2 "Bob" "READER")
  /\ ws_callback 2 LWS_CALLBACK_RECEIVE "role:writer" sqlite_ok reader_inside
     = (0, reader_inside,
        [ lws_write 2 DENIED_WRITER;
          lws_write 2 "SYSTEM_COUNTS:1:0";
          lws_write 1 "SYSTEM_COUNTS:1:0" ]).
Proof.
  split; [reflexivity|].
  exact (roles_are_sticky 2 "role:writer" sqlite_ok reader_inside
           (mk_client 2 "Bob" "READER") eq_refl eq_refl
           (or_intror (conj eq_refl eq_refl))).
Defined.

(** X8. Closing the Writer frees the room.  In the state after any run from
    the start of the service loop, when the session with role WRITER closes,
    [count_roles] afterwards reports no Reader and no Writer, so both
    admission tests pass for the next request. *)
Theorem closing_writer_frees_the_room :
  forall (d : sqlite) (events : list callback) (w : lws) (bytes : string)
         (rc : sqlite_rc) (c : client),
    let s := run events (startup d) in
    value (find_client w s) = Some c ->
    role c = "WRITER" ->
    let s' := globals (ws_callback w LWS_CALLBACK_CLOSED bytes rc s) in
    value (count_roles s') = (0, 0)
    /\ value (can_admit_as_writer s') = true
    /\ value (can_admit_as_reader s') = true.
Proof.
  intros d events w bytes rc c s H R s'.
  change (value (find_client w s)) with (lookup w (clients_head s)) in H.
  destruct (exclusive_run events (startup d) (exclusive_startup d))
    as [_ X]. fold s in X.
  assert (W : is_writer c = true) by (unfold is_writer; now rewrite R).
  assert (Rd : is_reader c = false) by (unfold is_reader; now rewrite W).
  pose proof (tally_lookup is_writer _ _ _ H W) as T.
  rewrite readers_tally, writers_tally in X.
  assert (S' : s' = unlinked w s).
  { subst s'. change (ws_callback w LWS_CALLBACK_CLOSED bytes rc s)
      with (on_closed w s). now rewrite on_closed_eq. }
  assert (C : readers s' = 0 /\ writers s' = 0).
  { rewrite S', readers_tally, writers_tally. cbn [unlinked set_clients clients_head].
    rewrite !(tally_unlink_found _ _ _ _ H), W, Rd. cbn [Z.b2z]. lia. }
  destruct C as [C1 C2].
  rewrite count_roles_eq, can_admit_as_writer_eq, can_admit_as_reader_eq.
  unfold value. cbn [fst]. rewrite C1, C2. repeat split.
Qed.

Lemma closing_writer_frees_the_room_witness :
  value (find_client 1
           (run (firstn 6 scenario) (startup (mk_sqlite true true true []))))
  = Some (mk_client 1 "Anonymous" "WRITER")
  /\ value (count_roles
              (globals
                 (ws_callback 1 LWS_CALLBACK_CLOSED "" sqlite_ok
                    (run (firstn 6 scenario)
                         (startup (mk_sqlite true true true []))))))
     = (0, 0).
Proof.
  split; [reflexivity|].
  exact (proj1 (closing_writer_frees_the_room (mk_sqlite true true true [])
                  (firstn 6 scenario) 1 "" sqlite_ok
                  (mk_client 1 "Anonymous" "WRITER") eq_refl eq_refl)).
Defined.

(** ** Reading the history *)

Lemma strncmp_own_prefix (p x : string) :
  strncmp (p ++ x) p (String.length p) = 0.
Proof.
  induction p as [|a p IH]; cbn [append String.length].
  - destruct x; reflexivity.
  - unfold strncmp; fold strncmp. now rewrite Z.eqb_refl.
Qed.

(** X9. Asking for the history.  Any frame that begins with [get_history],
    whatever follows, from a registered session of any role, changes nothing
    and is answered by one message to the sender alone: the snapshot of at
    most 500 records, or the empty text when there is none.  Such a frame is
    never broadcast or stored, even when a Writer sends it. *)
Theorem history_request :
  forall (w : lws) (rest : string) (rc : sqlite_rc) (s : server) (c : client),
    value (find_client w s) = Some c ->
    ws_callback w LWS_CALLBACK_RECEIVE ("get_history" ++ rest) rc s
    = (0, s,
       [lws_write w
          match value (db_get_history_snapshot rc 500 s) with
          | Some text => text
          | None => ""
          end]).
Proof.
  intros w rest rc s c H.
  change (value (find_client w s)) with (lookup w (clients_head s)) in H.
  change (ws_callback w LWS_CALLBACK_RECEIVE ("get_history" ++ rest) rc s)
    with (on_receive w ("get_history" ++ rest) rc s).
  apply (on_receive_get_history _ _ _ _ _ H).
  change (c_str ("get_history" ++ rest)) with ("get_history" ++ c_str rest).
  exact (strncmp_own_prefix "get_history" (c_str rest)).
Qed.

Lemma history_request_witness :
  value (find_client 1 ann_writes) = Some (mk_client 1 "Ann" "WRITER")
  /\ ws_callback 1 LWS_CALLBACK_RECEIVE "get_history, please" sqlite_ok
       ann_writes
     = (0, ann_writes, [lws_write 1 "Ann: first"]).
Proof.
  split; [reflexivity|].
  exact (history_request 1 ", please" sqlite_ok ann_writes
           (mk_client 1 "Ann" "WRITER") eq_refl).
Defined.

(** X10. A read error cuts the snapshot, newest rows kept.  When
    [sqlite3_step] reports an error after [k] rows, the snapshot is not the
    null pointer: it is the text of the [k] most recent of the records the
    limit allows, oldest first, and so the empty text when the first step
    already fails. *)
Theorem snapshot_after_read_error :
  forall (rc : sqlite_rc) (limit : Z) (s : server) (k : nat),
    select_available rc s = true ->
    select_error rc = Some k ->
    0 <= limit ->
    value (db_get_history_snapshot rc limit s)
    = Some (String.concat LF
              (map record_line
                   (most_recent (Nat.min k (Z.to_nat limit))
                                (messages (store s))))).
Proof.
  intros rc limit s k A E L.
  rewrite snapshot_value, A. unfold sqlite3_rows. rewrite E.
  rewrite sqlite3_select_recent by exact L.
  rewrite firstn_rev, rev_involutive. unfold most_recent.
  rewrite skipn_skipn, length_skipn.
  set (len := List.length (messages (store s))).
  set (n := Z.to_nat limit).
  replace (len - (len - n) - k + (len - n))%nat with (len - Nat.min k n)%nat
    by lia.
  reflexivity.
Qed.

Lemma snapshot_after_read_error_witness :
  value (db_get_history_snapshot (mk_rc true true (Some 1%nat) "") 500
           (startup (mk_sqlite true true true
                       [("a", "one"); ("b", "two"); ("c", "three")])))
  = Some "c: three".
Proof.
  apply (snapshot_after_read_error (mk_rc true true (Some 1%nat) "") 500
           (startup (mk_sqlite true true true
                       [("a", "one"); ("b", "two"); ("c", "three")])) 1);
    [reflexivity|reflexivity|discriminate].
Defined.

(** ** The chat line *)

Lemma lookup_In (w : lws) (l : list client) (c : client) :
  lookup w l = Some c -> In c l.
Proof.
  induction l as [|p next IH]; simpl; [discriminate|].
  destruct (Pos.eqb (wsi p) w).
  - intros H. inversion H. now left.
  - intros H. right. now apply IH.
Qed.

Lemma shown_name_length (name : string) :
  (String.length name <= 63)%nat ->
  (String.length (shown_name name) <= 63)%nat.
Proof. destruct name; cbn; lia. Qed.

(** X11. Chat lines of at most 4030 bytes are broadcast whole.  The line of
    an accepted chat message never exceeds 4095 bytes.  In the state after
    any run from the start of the service loop, a message of at most 4030
    bytes from the Writer is broadcast uncut: the display name (Anon for the
    empty one), a colon and a space, and the whole message. *)
Theorem short_chat_is_broadcast_whole :
  forall (d : sqlite) (events : list callback) (w : lws) (bytes : string)
         (rc : sqlite_rc) (c : client),
    let s := run events (startup d) in
    let msg := c_str bytes in
    value (find_client w s) = Some c ->
    is_chat msg ->
    strcasecmp (role c) "WRITER" = 0 ->
    (String.length (chat_line c msg) <= 4095)%nat
    /\ ((String.length msg <= 4030)%nat ->
        chat_line c msg = shown_name (username c) ++ ": " ++ msg
        /\ output (ws_callback w LWS_CALLBACK_RECEIVE bytes rc s)
           = ((if insert_succeeds rc s then []
               else insert_log rc s ++ [fprintf_stderr INSERT_WARNING])
              ++ map (fun p =>
                        lws_write (wsi p)
                          (shown_name (username c) ++ ": " ++ msg))
                     (clients_head s))%list).
Proof.
  intros d events w bytes rc c s msg H [E1 [E2 E3]] R.
  change (value (find_client w s)) with (lookup w (clients_head s)) in H.
  split; [apply (take_length 4095)|].
  intros L.
  assert (F : name_fits c).
  { pose proof (name_fits_run events (startup d) (Forall_nil _)) as F.
    rewrite Forall_forall in F. apply F. exact (lookup_In _ _ _ H). }
  assert (W : chat_line c msg = shown_name (username c) ++ ": " ++ msg).
  { unfold chat_line. fold (shown_name (username c)).
    apply snprintf_short. rewrite !length_append.
    pose proof (shown_name_length _ F). cbn [String.length]. unfold MAX_MSG_LEN.
    lia. }
  split; [exact W|].
  change (ws_callback w LWS_CALLBACK_RECEIVE bytes rc s)
    with (on_receive w bytes rc s).
  rewrite (on_receive_chat _ _ _ _ _ H E1 E2 E3).
  apply Z.eqb_eq in R. rewrite R. fold msg. rewrite W. unfold to_all.
  destruct (insert_succeeds rc s); unfold output; cbn [snd app];
    [reflexivity|]. now rewrite <- app_assoc.
Qed.

Lemma short_chat_is_broadcast_whole_witness :
  value (find_client 1
           (run (firstn 5 scenario) (startup (mk_sqlite true true true []))))
  = Some (mk_client 1 "Anonymous" "WRITER")
  /\ (String.length (chat_line (mk_client 1 "Anonymous" "WRITER") (c_str "hi"))
      <= 4095)%nat.
Proof.
  split; [reflexivity|].
  refine (proj1 (short_chat_is_broadcast_whole (mk_sqlite true true true [])
                   (firstn 5 scenario) 1 "hi" sqlite_ok
                   (mk_client 1 "Anonymous" "WRITER") eq_refl _ eq_refl)).
  unfold is_chat. repeat split; vm_compute; discriminate.
Defined.

(** X12. A new display name is the one the next chat line carries.  After a
    Writer sends [username:<value>], its next chat message is broadcast to
    the same handles under the new name, the value without its leading
    spaces and tabs cut to 63 bytes (Anon when that is empty), and, when the
    insert goes through, is stored under the new name as it is, empty or
    not. *)
Theorem rename_then_chat :
  forall (w : lws) (v bytes : string) (rc1 rc2 : sqlite_rc) (s : server)
         (c : client),
    value (find_client w s) = Some c ->
    strcasecmp (role c) "WRITER" = 0 ->
    is_chat (c_str bytes) ->
    let name := take 63 (skip_blanks (c_str v)) in
    let s1 := globals (ws_callback w LWS_CALLBACK_RECEIVE ("username:" ++ v)
                         rc1 s) in
    let result := ws_callback w LWS_CALLBACK_RECEIVE bytes rc2 s1 in
    let line := take 4095 (shown_name name ++ ": " ++ c_str bytes) in
    value (find_client w s1) = Some (mk_client w name (role c))
    /\ output result
       = ((if insert_succeeds rc2 s then []
           else insert_log rc2 s ++ [fprintf_stderr INSERT_WARNING])
          ++ map (fun h => lws_write h line) (value (collect_wsis s)))%list
    /\ (insert_succeeds rc2 s = true ->
        messages (store (globals result))
        = (messages (store s) ++ [(name, c_str bytes)])%list).
Proof.
  intros w v bytes rc1 rc2 s c H R [E1 [E2 E3]] name s1 result line.
  change (value (find_client w s)) with (lookup w (clients_head s)) in H.
  pose proof (lookup_wsi _ _ _ H) as Hw.
  assert (P : strncmp (c_str ("username:" ++ v)) "username:" 9 = 0).
  { change (c_str ("username:" ++ v)) with ("username:" ++ c_str v).
    exact (strncmp_own_prefix "username:" (c_str v)). }
  assert (S1 : s1 = stored c (set_username name) s).
  { subst s1.
    change (ws_callback w LWS_CALLBACK_RECEIVE ("username:" ++ v) rc1 s)
      with (on_receive w ("username:" ++ v) rc1 s).
    now rewrite (on_receive_username _ _ _ _ _ H P). }
  assert (L1 : lookup w (clients_head s1) = Some (mk_client w name (role c))).
  { rewrite S1. unfold stored, set_clients. cbn [clients_head]. rewrite Hw.
    rewrite (lookup_rewrite_node w (set_username name) _ c
               (fun p => eq_refl) H).
    unfold set_username. now rewrite Hw. }
  split; [exact L1|].
  assert (I : insert_succeeds rc2 s1 = insert_succeeds rc2 s)
    by now rewrite S1.
  assert (G : insert_log rc2 s1 = insert_log rc2 s) by now rewrite S1.
  assert (M : map wsi (clients_head s1) = map wsi (clients_head s)).
  { rewrite S1. unfold stored, set_clients. cbn [clients_head].
    now apply map_wsi_rewrite. }
  subst result.
  change (ws_callback w LWS_CALLBACK_RECEIVE bytes rc2 s1)
    with (on_receive w bytes rc2 s1).
  rewrite (on_receive_chat _ _ _ _ _ L1 E1 E2 E3).
  cbn [role username]. apply Z.eqb_eq in R. rewrite R, I, G.
  unfold chat_line. cbn [username]. fold (shown_name name).
  change (snprintf MAX_MSG_LEN (shown_name name ++ ": " ++ c_str bytes))
    with line.
  unfold to_all, value, collect_wsis, gets. cbn [fst].
  rewrite <- M, map_map.
  destruct (insert_succeeds rc2 s); unfold output, globals; cbn [fst snd app].
  - split; [reflexivity|]. intros _. now rewrite S1.
  - split; [now rewrite <- app_assoc|discriminate].
Qed.

Lemma rename_then_chat_witness :
  value (find_client 1 ann_writes) = Some (mk_client 1 "Ann" "WRITER")
  /\ output (ws_callback 1 LWS_CALLBACK_RECEIVE "hi" sqlite_ok
               (globals (ws_callback 1 LWS_CALLBACK_RECEIVE "username:  Zed"
                           sqlite_ok ann_writes)))
     = [lws_write 2 "Zed: hi"; lws_write 1 "Zed: hi"].
Proof.
  split; [reflexivity|].
  refine (proj1 (proj2 (rename_then_chat 1 "  Zed" "hi" sqlite_ok sqlite_ok
                          ann_writes (mk_client 1 "Ann" "WRITER")
                          eq_refl eq_refl _))).
  unfold is_chat. repeat split; vm_compute; discriminate.
Defined.

(** ** Frames with a NUL byte, and handles that are not registered *)

Lemma c_str_cut (front behind : string) :
  c_str (front ++ String NUL behind) = c_str front.
Proof.
  induction front as [|a r IH]; [reflexivity|].
  cbn [append]. unfold c_str; fold c_str. now rewrite IH.
Qed.

(** X13. A frame ends at its first NUL byte.  The callback does with a frame
    that holds a NUL byte exactly what it does with the bytes before that
    NUL: whatever follows is neither compared, stored nor broadcast. *)
Theorem frame_ends_at_nul :
  forall (w : lws) (front behind : string) (rc : sqlite_rc) (s : server),
    ws_callback w LWS_CALLBACK_RECEIVE (front ++ String NUL behind) rc s
    = ws_callback w LWS_CALLBACK_RECEIVE front rc s.
Proof.
  intros w front behind rc s. cbn [ws_callback]. unfold on_receive.
  now rewrite c_str_cut.
Qed.

(** X14. A broadcast reaches the registered handles, and only them.
    [broadcast_text] changes nothing; it writes the text once per node, in
    the order of the list, so a handle receives it exactly when
    [find_client] finds it, and nothing else is written. *)
Theorem broadcast_reaches_the_registered :
  forall (text : string) (s : server),
    let result := broadcast_text text s in
    globals result = s
    /\ output result
       = map (fun h => lws_write h text) (value (collect_wsis s))
    /\ List.length (output result) = List.length (clients_head s)
    /\ (forall w : lws,
           In (lws_write w text) (output result)
           <-> value (find_client w s) <> None).
Proof.
  intros text s result. subst result. rewrite broadcast_text_eq.
  unfold globals, output, value, collect_wsis, find_client, gets, to_all.
  cbn [fst snd]. split; [reflexivity|]. split; [now rewrite map_map|].
  split; [apply length_map|].
  intros w. rewrite lookup_registered, in_map_iff, in_map_iff.
  split.
  - intros [p [E Hp]]. exists p. split; [congruence|exact Hp].
  - intros [p [E Hp]]. exists p. split; [now rewrite E|exact Hp].
Qed.

(** X15. Handles that are not registered.  A frame from a handle that
    [find_client] does not find is dropped whole: nothing is sent or changed,
    whatever the frame asks for.  Closing such a handle changes nothing
    either, but the counts are still broadcast to every registered
    session. *)
Theorem unregistered_handle :
  forall (w : lws) (bytes : string) (rc : sqlite_rc) (s : server),
    value (find_client w s) = None ->
    ws_callback w LWS_CALLBACK_RECEIVE bytes rc s = (0, s, [])
    /\ ws_callback w LWS_CALLBACK_CLOSED bytes rc s
       = (0, s,
          map (fun p => lws_write (wsi p) (snprintf 128 (counts_text s)))
              (clients_head s)).
Proof.
  intros w bytes rc s H.
  change (value (find_client w s)) with (lookup w (clients_head s)) in H.
  split.
  - exact (on_receive_unknown w bytes rc s H).
  - change (ws_callback w LWS_CALLBACK_CLOSED bytes rc s)
      with (on_closed w s).
    rewrite on_closed_eq, H. unfold unlinked.
    rewrite (unlink_unknown _ _ H). unfold set_clients, to_all.
    destruct s. reflexivity.
Qed.

Lemma unregistered_handle_witness :
  value (find_client 7 writer_inside) = None
  /\ ws_callback 7 LWS_CALLBACK_RECEIVE "role:writer" sqlite_ok writer_inside
     = (0, writer_inside, []).
Proof.
  split; [reflexivity|].
  exact (proj1 (unregistered_handle 7 "role:writer" sqlite_ok writer_inside
                  eq_refl)).
Defined.

(** ** Start and end of the process *)

(** X16. What [init_db] promises.  It returns 0 or -1, and 0 exactly when the
    open, the CREATE TABLE and both prepares succeed: a failed PRAGMA or a
    failed DELETE is only logged.  On 0 the three handles are set and the
    table is empty when the DELETE succeeded, and still holds the rows of the
    file when it failed.  On -1 something was logged, both statement handles
    are null, and the database handle is null too unless the open itself
    failed and left one behind. *)
Theorem init_db_contract :
  forall (filename : string) (table : list (string * string)) (rc : init_rc),
    let result := init_db filename table rc in
    let status := fst (fst result) in
    let d := snd (fst result) in
    (status = 0 \/ status = -1)
    /\ (status = 0 <->
        open_ok rc = true /\ create_ok rc = true
        /\ prepare_insert_ok rc = true /\ prepare_select_ok rc = true)
    /\ (status = 0 ->
        db d = true /\ insert_stmt d = true /\ select_stmt d = true
        /\ messages d = (if delete_ok rc then [] else table)
        /\ (wal_ok rc = true -> delete_ok rc = true -> snd result = []))
    /\ (status = -1 ->
        insert_stmt d = false /\ select_stmt d = false
        /\ (open_ok rc = true -> db d = false)
        /\ snd result <> []).
Proof.
  intros filename table rc result status d. subst status d result.
  unfold init_db.
  destruct (open_ok rc), (create_ok rc), (prepare_insert_ok rc),
    (prepare_select_ok rc), (wal_ok rc), (delete_ok rc);
    cbn; repeat split; try tauto; try discriminate; try (now left);
    try (now right); try (intros [? [? [? ?]]]; discriminate);
    try (intros; discriminate).
Qed.

(** X17. After [close_db] the store answers by failure only.  [close_db]
    nulls the three handles and keeps the registry and the table; after it
    [db_insert_message] returns -1 without writing or logging,
    [db_get_history_snapshot] returns the null pointer, and a second
    [close_db] changes nothing. *)
Theorem closed_store_fails_quietly :
  forall (s : server) (rc : sqlite_rc) (u m : string) (limit : Z),
    let s' := globals (close_db s) in
    clients_head s' = clients_head s
    /\ messages (store s') = messages (store s)
    /\ db (store s') = false /\ insert_stmt (store s') = false
    /\ select_stmt (store s') = false
    /\ db_insert_message rc u m s' = (-1, s', [])
    /\ db_get_history_snapshot rc limit s' = (None, s', [])
    /\ globals (close_db s') = s'.
Proof.
  intros s rc u m limit s'. subst s'. unfold close_db, modify, globals.
  cbn [fst snd set_store clients_head store messages db insert_stmt
       select_stmt].
  repeat split.
Qed.

Lemma run_app (a b : list callback) (s : server) :
  run (a ++ b) s = run b (run a s).
Proof. unfold run. apply fold_left_app. Qed.

Lemma transcript_app (a b : list callback) (s : server) :
  transcript (a ++ b) s = (transcript a s ++ transcript b (run a s))%list.
Proof.
  revert s. induction a as [|e a IH]; intros s; [reflexivity|].
  cbn [app transcript]. now rewrite IH.
Qed.

Lemma service_loop_left (lws_service : transport) (k : nat) :
  forall (fuel i : nat) (n : Z) (s : server) (out : list io),
    0 <= n ->
    (forall j : nat, (j < k)%nat -> 0 <= snd (lws_service (i + j)%nat)) ->
    snd (lws_service (i + k)%nat) < 0 ->
    (k < fuel)%nat ->
    service_loop fuel lws_service i n s out
    = Some (run (delivered lws_service i (S k)) s,
            (out ++ List.concat
                      (transcript (delivered lws_service i (S k)) s))%list).
Proof.
  induction k as [|k IH]; intros fuel i n s out N P Q F;
    (destruct fuel as [|fuel]; [lia|]);
    cbn [service_loop]; (destruct (Z.ltb_spec n 0); [lia|]); cbv zeta.
  - rewrite Nat.add_0_r in Q.
    destruct fuel; cbn [service_loop];
      (destruct (Z.ltb_spec (snd (lws_service i)) 0); [|lia]);
      cbn [delivered]; now rewrite app_nil_r.
  - rewrite (IH fuel (S i)).
    + change (delivered lws_service i (S (S k)))
        with (fst (lws_service i) ++ delivered lws_service (S i) (S k))%list.
      rewrite run_app, transcript_app, concat_app, <- app_assoc.
      reflexivity.
    + specialize (P 0%nat). rewrite Nat.add_0_r in P. apply P. lia.
    + intros j J. replace (S i + j)%nat with (i + S j)%nat by lia.
      apply P. lia.
    + replace (S i + k)%nat with (i + S k)%nat by lia. exact Q.
    + lia.
Qed.

Lemma service_loop_running (lws_service : transport) (fuel : nat) :
  forall (i : nat) (n : Z) (s : server) (out : list io),
    0 <= n ->
    (forall j : nat, 0 <= snd (lws_service (i + j)%nat)) ->
    service_loop fuel lws_service i n s out = None.
Proof.
  induction fuel as [|fuel IH]; intros i n s out N P; cbn [service_loop];
    (destruct (Z.ltb_spec n 0); [lia|]); [reflexivity|]. cbv zeta.
  apply IH.
  - specialize (P 0%nat). now rewrite Nat.add_0_r in P.
  - intros j. replace (S i + j)%nat with (i + S j)%nat by lia. apply P.
Qed.

(** X18. When and how [main] returns.  If [init_db] fails, or it succeeds and
    [lws_create_context] fails, [main] returns 1 without entering the service
    loop, having written to [stderr] only; in the second case [close_db] has
    run.  Otherwise [main] returns exactly when a call of [lws_service]
    returns a negative value: if call number [k] is the first to do so, the
    loop is left after it, the callbacks of [lws_context_destroy] run,
    [close_db] runs and the status is 0; if no call ever returns a negative
    value the loop is still running after any number of calls.  Whenever
    [main] returns, the status is 0 or 1, it is 1 only in the two cases
    above, the registry is then empty, and the three handles are null if
    [init_db] had succeeded. *)
Theorem main_exit_status :
  forall (argv : list string) (table : list (string * string))
         (irc : init_rc) (context : bool) (lws_service : transport)
         (at_destroy : list callback),
    let dbfile := match argv with
                  | _ :: file :: _ => file
                  | _ => DEFAULT_DBFILE
                  end in
    let started := fst (fst (init_db dbfile table irc)) in
    let s0 := startup (snd (fst (init_db dbfile table irc))) in
    let only_stderr :=
      Forall (fun o => exists text, o = core (fprintf_stderr text)) in
    (started <> 0 ->
     forall fuel : nat,
     exists log : list console,
       main fuel argv table irc context lws_service at_destroy
       = Some (1, s0, log)
       /\ only_stderr log)
    /\ (started = 0 -> context = false ->
        forall fuel : nat,
        exists log : list console,
          main fuel argv table irc context lws_service at_destroy
          = Some (1, globals (close_db s0), log)
          /\ only_stderr log)
    /\ (started = 0 -> context = true ->
        forall k : nat,
          (forall j : nat, (j < k)%nat -> 0 <= snd (lws_service j)) ->
          snd (lws_service k) < 0 ->
          forall fuel : nat, (k < fuel)%nat ->
          exists out : list console,
            main fuel argv table irc context lws_service at_destroy
            = Some (0,
                    globals (close_db
                               (run (delivered lws_service 0 (S k)
                                     ++ at_destroy) s0)),
                    out)
            /\ In (printf ("DB file: " ++ dbfile ++ LF)) out)
    /\ (started = 0 -> context = true ->
        (forall j : nat, 0 <= snd (lws_service j)) ->
        forall fuel : nat,
          main fuel argv table irc context lws_service at_destroy = None)
    /\ (forall (fuel : nat) (result : Z * server * list console),
           main fuel argv table irc context lws_service at_destroy
           = Some result ->
           (fst (fst result) = 0 \/ fst (fst result) = 1)
           /\ (fst (fst result) = 1 <-> started <> 0 \/ context = false)
           /\ (fst (fst result) = 1 -> clients_head (snd (fst result)) = [])
           /\ (started = 0 ->
               db (store (snd (fst result))) = false
               /\ insert_stmt (store (snd (fst result))) = false
               /\ select_stmt (store (snd (fst result))) = false)).
Proof.
  intros argv table irc context lws_service at_destroy dbfile started s0
    only_stderr.
  assert (L : only_stderr (map core (snd (init_db dbfile table irc)))).
  { unfold only_stderr, init_db.
    destruct (open_ok irc), (create_ok irc), (prepare_insert_ok irc),
      (prepare_select_ok irc), (wal_ok irc), (delete_ok irc); cbn;
      repeat constructor; eexists; reflexivity. }
  assert (L1 : forall text,
             only_stderr (map core (snd (init_db dbfile table irc))
                          ++ [core (fprintf_stderr text)])%list).
  { intros text. apply Forall_app. split; [exact L|].
    constructor; [eexists; reflexivity|constructor]. }
  split; [|split; [|split; [|split]]].
  - intros E fuel. unfold main. fold dbfile. fold started.
    apply Z.eqb_neq in E. rewrite E. cbn [negb].
    eexists. split; [reflexivity|apply L1].
  - intros E C fuel. unfold main. fold dbfile. fold started.
    rewrite E, C. cbn [Z.eqb negb].
    eexists. split; [reflexivity|apply L1].
  - intros E C k P Q fuel F. unfold main. fold dbfile. fold started.
    rewrite E, C. cbn [Z.eqb negb]. fold s0.
    rewrite (service_loop_left lws_service k fuel 0 0 s0 []);
      [|lia|exact P|exact Q|exact F].
    eexists. split.
    + rewrite run_app. reflexivity.
    + apply in_or_app. right. right. left. reflexivity.
  - intros E C P fuel. unfold main. fold dbfile. fold started.
    rewrite E, C. cbn [Z.eqb negb]. fold s0.
    now rewrite (service_loop_running lws_service fuel 0 0 s0 []).
  - intros fuel result. unfold main. fold dbfile. fold started. fold s0.
    destruct (Z.eqb_spec started 0) as [E|E]; cbn [negb].
    + destruct context; cbn [negb].
      * destruct (service_loop fuel lws_service 0 0 s0 []) as [[s out]|];
          [|discriminate].
        intros R. inversion R; subst result. cbn [fst snd].
        split; [now left|]. split.
        { split; [discriminate|]. intros [G|G]; [contradiction|discriminate]. }
        split; [discriminate|]. intros _. repeat split.
      * intros R. inversion R; subst result. cbn [fst snd].
        split; [now right|]. split; [split; [now right|reflexivity]|].
        split; [reflexivity|]. intros _. repeat split.
    + intros R. inversion R; subst result. cbn [fst snd].
      split; [now right|]. split; [split; [now left|reflexivity]|].
      split; [reflexivity|]. contradiction.
Qed.

(** ** Where the output goes *)

Lemma to_all_registered (s : server) (text : string) (l : list client) :
  map wsi (clients_head s) = map wsi l ->
  Forall (to_registered l) (to_all s text).
Proof.
  intros E. unfold to_all. rewrite Forall_forall. intros o Ho.
  apply in_map_iff in Ho. destruct Ho as [p [Eo Hp]]. subst o.
  cbn [to_registered]. rewrite <- E. now apply in_map.
Qed.

Lemma insert_log_registered (rc : sqlite_rc) (s : server) (l : list client) :
  Forall (to_registered l) (insert_log rc s).
Proof.
  unfold insert_log.
  destruct (db (store s) && insert_stmt (store s) && bind_ok rc
            && negb (insert_done rc)); repeat constructor.
Qed.

Lemma writes_registered :
  forall (s : server) (e : callback),
    Forall (to_registered (clients_head (deliver s e)))
      (output (ws_callback (cb_wsi e) (cb_reason e) (cb_in e) (cb_rc e) s)).
Proof.
  intros s e. destruct e as [w reason bytes rc]. unfold deliver.
  cbn [cb_wsi cb_reason cb_in cb_rc]. destruct reason.
  - rewrite on_established_eq. constructor.
  - change (ws_callback w LWS_CALLBACK_RECEIVE bytes rc s)
      with (on_receive w bytes rc s).
    destruct (lookup w (clients_head s)) as [c|] eqn:H.
    2: { rewrite on_receive_unknown by exact H. constructor. }
    pose proof (lookup_wsi _ _ _ H) as Hw.
    assert (R : In w (map wsi (clients_head s))).
    { apply lookup_registered. now rewrite H. }
    destruct (Z.eq_dec (strncmp (c_str bytes) "username:" 9) 0) as [E1|E1].
    { rewrite (on_receive_username _ _ _ _ _ H E1). constructor. }
    destruct (Z.eq_dec (strncmp (c_str bytes) "role:" 5) 0) as [E2|E2].
    { rewrite (on_receive_role_spec _ _ _ _ _ H E2). cbv zeta.
      destruct (CanAdmit _ (readers s) (writers s));
        unfold globals, output; cbn [fst snd].
      - assert (M : map wsi (clients_head
                                (stored c (set_role
                                   (role_name
                                      (RequestedRole
                                         (advance 5 (c_str bytes))))) s))
                    = map wsi (clients_head s)).
        { unfold stored, set_clients. cbn [clients_head].
          now apply map_wsi_rewrite. }
        apply Forall_app; split; [|apply Forall_app; split;
                                    [|apply Forall_app; split]].
        + unfold history_out. rewrite Hw.
          destruct (snapshot_of rc s); constructor; [|constructor].
          cbn [to_registered]. now rewrite M.
        + constructor; [|constructor]. cbn [to_registered]. now rewrite M.
        + now apply to_all_registered.
        + now apply to_all_registered.
      - constructor; [exact R|]. now apply to_all_registered. }
    destruct (Z.eq_dec (strncmp (c_str bytes) "get_history" 11) 0) as [E3|E3].
    { rewrite (on_receive_get_history _ _ _ _ _ H E3).
      constructor; [exact R|constructor]. }
    rewrite (on_receive_chat _ _ _ _ _ H E1 E2 E3).
    destruct (strcasecmp (role c) "WRITER" =? 0).
    + destruct (insert_succeeds rc s); unfold globals, output;
        cbn [fst snd].
      * now apply to_all_registered.
      * apply Forall_app; split; [|apply Forall_app; split].
        -- apply insert_log_registered.
        -- constructor; [exact I|constructor].
        -- now apply to_all_registered.
    + constructor; [exact R|constructor].
  - change (ws_callback w LWS_CALLBACK_CLOSED bytes rc s)
      with (on_closed w s).
    rewrite on_closed_eq. unfold globals, output. cbn [fst snd].
    apply Forall_app. split; [|now apply to_all_registered].
    destruct (lookup w (clients_head s)) as [c|]; [|constructor].
    destruct (strcasecmp (role c) "WRITER" =? 0); [|constructor].
    now apply to_all_registered.
  - constructor.
Qed.

(** X19. Nothing is written to a handle that is not registered.  Every write
    to a connection that a callback makes goes to a handle that is in the
    registry when the callback returns.  So a frame from a handle that is not
    registered gets no reply, and nothing else is written for it; and when no
    two nodes share a handle, nothing is written to a handle while it is
    closed: it receives neither its departure notice nor the counts. *)
Theorem writes_go_to_registered_handles :
  forall (s : server) (e : callback),
    let out :=
      output (ws_callback (cb_wsi e) (cb_reason e) (cb_in e) (cb_rc e) s) in
    Forall (to_registered (clients_head (deliver s e))) out
    /\ (cb_reason e = LWS_CALLBACK_RECEIVE ->
        value (find_client (cb_wsi e) s) = None -> out = [])
    /\ (cb_reason e = LWS_CALLBACK_CLOSED ->
        NoDup (map wsi (clients_head s)) ->
        forall text : string, ~ In (lws_write (cb_wsi e) text) out).
Proof.
  intros s e out. pose proof (writes_registered s e) as F. fold out in F.
  split; [exact F|]. split.
  - intros R H. subst out. rewrite R.
    change (value (find_client (cb_wsi e) s))
      with (lookup (cb_wsi e) (clients_head s)) in H.
    change (ws_callback (cb_wsi e) LWS_CALLBACK_RECEIVE (cb_in e) (cb_rc e) s)
      with (on_receive (cb_wsi e) (cb_in e) (cb_rc e) s).
    now rewrite on_receive_unknown.
  - intros R N text Hin. rewrite Forall_forall in F.
    specialize (F _ Hin). cbn [to_registered] in F.
    apply lookup_registered in F. apply F.
    unfold deliver. rewrite R.
    change (ws_callback (cb_wsi e) LWS_CALLBACK_CLOSED (cb_in e) (cb_rc e) s)
      with (on_closed (cb_wsi e) s).
    rewrite on_closed_eq. unfold globals, unlinked, set_clients.
    cbn [fst snd clients_head]. now apply lookup_unlink_once.
Qed.
